(** * Conference assistant backend: turn orchestration

    A shallow embedding of [python-backend/main.py],
    [python-backend/conference_agents/conference_agents_definitions.py] and
    [python-backend/api.py], and the properties of the turn engine:
    guardrail pipeline, keyword router, tool dispatch, conversation store
    and the single-hop handoff performed by the [/chat] endpoint.

    Conventions of the embedding.
    - A Python [str] is a [string] (its UTF-8 bytes).  [in], [split] and
      [replace] are defined on it; [str.lower] and [str.strip] depend on the
      Unicode tables of the interpreter and are operations of the [Runtime]
      interface below, with an ASCII instance for the concrete evaluations.
    - A call that may raise returns an [Outcome]; the exception is kept as
      the text [str(e)].
    - The package [agents] is not part of the sources.  A function
      decorated with [function_tool] is called by [api.py] with the
      arguments of its body and read through [__name__]; it is modelled by
      its body under the name of the function.
    - Every awaited callable and every [logger.error] is recorded in a trace
      of [Effect]s, in program order, next to the value a function returns.
    - The [id] and [timestamp] entries of the dictionaries built by
      [api.py] ([uuid.uuid4()], [datetime.now()]) are left out of the
      records: they are fresh runtime values that the code never reads.
      Conversation identifiers, which the code does read, are modelled. *)

From stdpp Require Import base option list strings gmap.
From Stdlib Require Import Ascii String Bool Arith Lia.

Local Open Scope string_scope.
Local Open Scope list_scope.

(** ** Python strings *)

Module Py.

(** [needle in hay] *)
Fixpoint str_in (needle hay : string) : bool :=
  String.prefix needle hay ||
  match hay with
  | EmptyString => false
  | String _ rest => str_in needle rest
  end.

(** [any(p in s for p in patterns)] *)
Definition any_in (patterns : list string) (s : string) : bool :=
  existsb (fun p => str_in p s) patterns.

(** [sum(1 for k in keywords if k in s)] *)
Definition sum_ones (keywords : list string) (s : string) : nat :=
  sum_list (map (fun _ => 1) (List.filter (fun k => str_in k s) keywords)).

(** [s.split(sep)] for a one-character separator: the pieces between
    successive occurrences of [sep]; always at least one piece. *)
Fixpoint split (sep : ascii) (s : string) : list string :=
  match s with
  | EmptyString => [EmptyString]
  | String c rest =>
      if Ascii.eqb c sep then EmptyString :: split sep rest
      else match split sep rest with
           | [] => [String c EmptyString]
           | piece :: pieces => String c piece :: pieces
           end
  end.

(** [s.split(sep, 1)] when [sep in s]: the text before the first
    occurrence and the text after it.  [None] when [sep] does not occur. *)
Fixpoint split_once (sep : ascii) (s : string) : option (string * string) :=
  match s with
  | EmptyString => None
  | String c rest =>
      if Ascii.eqb c sep then Some (EmptyString, rest)
      else match split_once sep rest with
           | Some (k, v) => Some (String c k, v)
           | None => None
           end
  end.

(** [s.replace(a, b)] for one-character [a] and [b] *)
Fixpoint replace (a b : ascii) (s : string) : string :=
  match s with
  | EmptyString => EmptyString
  | String c rest => String (if Ascii.eqb c a then b else c) (replace a b rest)
  end.

(** Truth value of a string: [bool(s)] *)
Definition truthy (s : string) : bool :=
  match s with EmptyString => false | _ => true end.

(** The substring relation that [str_in] decides. *)
Definition occurs_in (needle hay : string) : Prop :=
  exists pre post, hay = pre +:+ needle +:+ post.

End Py.

(** A call that returns a value or raises; [e] is [str(exception)]. *)
Inductive Outcome (A : Type) : Type :=
| Returned (a : A)
| Raised (e : string).
Arguments Returned {A} a.
Arguments Raised {A} e.

(** ** Values shared by the three modules *)

(** A value stored in a user row or in the context. *)
Inductive PyVal : Type :=
| PStr (s : string)
| PBool (b : bool).

(** A user row returned by the directory: a [dict]. *)
Abbreviation User := (gmap string PyVal).

(** Modelled from the spec: [shared_types.AirlineAgentContext] is not among
    the sources.  The record has the six attributes that [api.py] and
    [main.py] assign; a freshly constructed context is the "empty Context"
    of the spec, every attribute unset. *)
Record AirlineAgentContext : Type := {
  passenger_name : option PyVal;
  customer_id : option PyVal;
  account_number : option PyVal;
  customer_email : option PyVal;
  is_conference_attendee : option PyVal;
  conference_name : option PyVal;
}.

Definition AirlineAgentContext_new : AirlineAgentContext :=
  {| passenger_name := None; customer_id := None; account_number := None;
     customer_email := None; is_conference_attendee := None;
     conference_name := None |}.

(** Keyword arguments of [add_business_tool]. *)
Record BusinessArgs : Type := {
  company_name : string;
  industry_sector : string;
  sub_sector : string;
  location : string;
  position_title : string;
  legal_structure : string;
  establishment_year : string;
  products_or_services : string;
  brief_description : string;
  website : option string;
}.

(** The three call shapes [api.py] uses: [tool(context)],
    [tool(context, query=message)] and [tool(context, company_name=..., ...)]. *)
Inductive ToolArgs : Type :=
| NoArgs
| QueryArgs (query : string)
| AddBusinessArgs (fields : BusinessArgs).

(** What the result object of a guardrail looks like to the attribute
    probing of [run_single_agent_turn]. *)
Inductive GuardrailOutput : Type :=
| RelevanceOutput (reasoning : string) (is_relevant : bool)
| JailbreakOutput (reasoning : string) (is_safe : bool)
| OtherOutput (as_bool : bool) (as_str : string).

(** A callable with a [__name__]. *)
Record Tool : Type := {
  tool_name : string;
  tool_call : AirlineAgentContext -> ToolArgs -> Outcome string;
}.

(** A guardrail as [api.py] calls it: [guardrail_func(context, message)]. *)
Abbreviation Guardrail :=
  (AirlineAgentContext -> string -> Outcome GuardrailOutput).

(** The fields of [agents.Agent] that the backend reads.  [input_guardrails]
    is the empty list when the constructor is not given one.  Calling
    [instructions] returns a prompt, which [run_single_agent_turn] discards,
    or raises; only that much is kept.  [handoffs] holds the target names. *)
Record Agent : Type := {
  name : string;
  handoff_description : string;
  instructions : AirlineAgentContext -> Outcome unit;
  tools : list Tool;
  handoffs : list string;
  input_guardrails : list string;
}.

(** Operations whose result is decided outside the sources: the Unicode
    case and white-space tables, the text that the directory-backed tools
    format from the database, the user directory, and the successive values
    of [str(uuid.uuid4())] drawn for conversation identifiers. *)
Class Runtime : Type := {
  lower : string -> string;
  strip : string -> string;
  tool_text : string -> AirlineAgentContext -> ToolArgs -> string;
  get_user_by_registration_id : string -> Outcome (option User);
  get_user_by_qr_code : string -> Outcome (option User);
  uuid4 : nat -> string;
}.

(** ** conference_agents/conference_agents_definitions.py *)

Module ConferenceAgents.
Section WithRuntime.
Context `{Runtime}.

(** The body of a directory-backed tool is one [try] whose handler returns
    an error text, so the call always returns a string; which string is
    decided by the database and stands in [tool_text]. *)
Definition directory_tool (fn_name : string) : Tool :=
  {| tool_name := fn_name;
     tool_call := fun ctx args => Returned (tool_text fn_name ctx args) |}.

Definition get_conference_schedule_tool : Tool :=
  directory_tool "get_conference_schedule_tool".
Definition search_attendees_tool : Tool :=
  directory_tool "search_attendees_tool".
Definition search_businesses_tool : Tool :=
  directory_tool "search_businesses_tool".
Definition get_user_businesses_tool : Tool :=
  directory_tool "get_user_businesses_tool".
Definition add_business_tool : Tool :=
  directory_tool "add_business_tool".
Definition get_organization_info_tool : Tool :=
  directory_tool "get_organization_info_tool".

Definition display_business_form_tool : Tool :=
  {| tool_name := "display_business_form_tool";
     tool_call := fun _ _ => Returned "DISPLAY_BUSINESS_FORM" |}.

(** [schedule_agent_instructions] and [networking_agent_instructions] read
    [ctx.passenger_name] and format a prompt; nothing in them raises. *)
Definition schedule_agent_instructions (ctx : AirlineAgentContext) : Outcome unit :=
  Returned tt.

Definition networking_agent_instructions (ctx : AirlineAgentContext) : Outcome unit :=
  Returned tt.

(** [handoffs] is the value after [main.py] has reassigned it. *)
Definition schedule_agent : Agent :=
  {| name := "Schedule Agent";
     handoff_description :=
       "An agent to provide conference schedule information and help find sessions.";
     instructions := schedule_agent_instructions;
     tools := [get_conference_schedule_tool];
     handoffs := ["Triage Agent"];
     input_guardrails := [] |}.

Definition networking_agent : Agent :=
  {| name := "Networking Agent";
     handoff_description :=
       "An agent to help with networking, finding attendees, and business connections.";
     instructions := networking_agent_instructions;
     tools := [search_attendees_tool; search_businesses_tool;
               get_user_businesses_tool; display_business_form_tool;
               add_business_tool; get_organization_info_tool];
     handoffs := ["Triage Agent"];
     input_guardrails := [] |}.

End WithRuntime.
End ConferenceAgents.

(** ** main.py *)

Module Main.
Section WithRuntime.
Context `{Runtime}.

Definition conference_keywords : list string :=
  ["conference"; "session"; "speaker"; "schedule"; "event"; "attendee"; "networking";
   "business"; "company"; "organization"; "track"; "room"; "time"; "date";
   "july"; "presentation"; "talk"; "workshop"; "meeting"; "registration";
   "participant"; "delegate"; "agenda"; "program"; "venue"; "location"].

Definition greeting_patterns : list string :=
  ["hello"; "hi"; "help"; "what"; "how"; "when"; "where"; "who"; "can you"].

Definition relevance_guardrail : Guardrail := fun context user_input =>
  let user_input_lower := lower user_input in
  let is_relevant := Py.any_in conference_keywords user_input_lower in
  let is_relevant :=
    if Py.any_in greeting_patterns user_input_lower then true else is_relevant in
  let reasoning :=
    if is_relevant then "User input is relevant to conference assistance"
    else "User input is not related to conference topics" in
  Returned (RelevanceOutput reasoning is_relevant).

Definition jailbreak_patterns : list string :=
  ["ignore"; "forget"; "system"; "prompt"; "instruction"; "override";
   "pretend"; "roleplay"; "act as"; "you are now"; "new role";
   "disregard"; "bypass"; "admin"; "developer"; "debug"].

Definition jailbreak_guardrail : Guardrail := fun context user_input =>
  let user_input_lower := lower user_input in
  let contains_jailbreak := Py.any_in jailbreak_patterns user_input_lower in
  let reasoning :=
    if contains_jailbreak then "Input contains potential jailbreak attempt"
    else "Input appears safe" in
  Returned (JailbreakOutput reasoning (negb contains_jailbreak)).

(** [get_user_info_tool] is listed by the triage agent and never called by
    [api.py]; its text depends on the directory. *)
Definition get_user_info_tool : Tool :=
  ConferenceAgents.directory_tool "get_user_info_tool".

(** [triage_instructions] formats a prompt from [ctx.passenger_name] and
    [ctx.conference_name]; nothing in it raises. *)
Definition triage_instructions (ctx : AirlineAgentContext) : Outcome unit :=
  Returned tt.

Definition triage_agent : Agent :=
  {| name := "Triage Agent";
     handoff_description := "Main entry point for conference assistance";
     instructions := triage_instructions;
     tools := [get_user_info_tool];
     handoffs := ["Schedule Agent"; "Networking Agent"];
     input_guardrails := ["relevance_guardrail"; "jailbreak_guardrail"] |}.

Definition all_agents : list Agent :=
  [triage_agent; ConferenceAgents.schedule_agent; ConferenceAgents.networking_agent].

Definition all_guardrails : gmap string Guardrail :=
  <["relevance_guardrail" := relevance_guardrail]>
    (<["jailbreak_guardrail" := jailbreak_guardrail]> ∅).

Definition starting_agent : Agent := triage_agent.

End WithRuntime.
End Main.

(** ** api.py: data *)

(** An entry of a message log: the user's message stored by [chat], or a
    reply [{"content": ..., "agent": ...}] produced by an agent step. *)
Inductive Message : Type :=
| UserMessage (content : string)
| AgentMessage (content : string) (agent : string).

(** A [guardrail_check] dictionary. *)
Module Check.
Record t : Type := {
  name : string;
  input : string;
  reasoning : string;
  passed : bool;
}.
End Check.

(** An event dictionary; [metadata] depends on the type of the event. *)
Module Event.
Inductive metadata_t : Type :=
| HandoffMetadata (source_agent target_agent : string)
| ToolCallMetadata (tool_name tool_result : string).
Record t : Type := {
  type : string;
  agent : string;
  content : string;
  metadata : metadata_t;
}.
End Event.

(** An entry of [tool_results]. *)
Module ToolResult.
Record t : Type := {
  tool_name : string;
  result : string;
}.
End ToolResult.

(** The dictionary returned by [run_single_agent_turn]. *)
Module Turn.
Record t : Type := {
  messages : list Message;
  events : list Event.t;
  guardrails : list Check.t;
  handoff : option string;
}.
End Turn.

(** A value of the [conversations] dictionary. *)
Module Conversation.
Record t : Type := {
  context : AirlineAgentContext;
  current_agent : string;
  messages : list Message;
  events : list Event.t;
  guardrails : list Check.t;
  customer_info : option User;
}.
End Conversation.

Module ChatRequest.
Record t : Type := {
  message : string;
  conversation_id : option string;
  account_number : option string;
}.
End ChatRequest.

(** [ChatResponse] without its [agents] field, the static roster. *)
Module ChatResponse.
Record t : Type := {
  conversation_id : string;
  current_agent : string;
  messages : list Message;
  events : list Event.t;
  context : AirlineAgentContext;
  guardrails : list Check.t;
  customer_info : option User;
}.
End ChatResponse.

(** What a step does besides computing its result, in program order. *)
Inductive Effect : Type :=
| CallGuardrail (guardrail_name : string) (message : string)
| CallTool (tool : string) (args : ToolArgs)
| CallDirectory (lookup : string) (identifier : string)
| LogError (text : string).

(** The process state: the module-level [conversations] dictionary and the
    number of conversation identifiers drawn so far. *)
Record World : Type := {
  conversations : gmap string Conversation.t;
  uuid_count : nat;
}.

Definition initial_world : World :=
  {| conversations := ∅; uuid_count := 0 |}.

(** ** api.py: functions *)

Module Api.
Section WithRuntime.
Context `{Runtime}.

(** [all_guardrails], imported from [main]: the callables behind the
    guardrail names.  The functions below are written for any table, so that
    a guardrail that raises can be considered; [Main.all_guardrails] is the
    table of the program. *)
Variable all_guardrails : gmap string Guardrail.

Definition nl : string := String "010"%char EmptyString.

Definition rejection_text : string :=
  "Sorry, I can only answer questions related to conference topics.".

Definition apology_text : string :=
  "I'm sorry, I encountered an error. Please try again.".

Definition triage_default_text : string :=
  "Hello! I'm here to help you with conference information. " +:+
  "I can help you find:" +:+ nl +:+ nl +:+
  "🗓️ **Schedule & Sessions** - Ask about speakers, events, times, or rooms" +:+ nl +:+
  "🤝 **Networking** - Find attendees, businesses, or register your company" +:+ nl +:+ nl +:+
  "What would you like to know about the conference?".

Definition specialist_default_text : string :=
  "I'm here to help! Please let me know what you'd like to know.".

(** The attribute probing on the result of a guardrail. *)
Definition passed_of (result : GuardrailOutput) : bool :=
  match result with
  | RelevanceOutput _ is_relevant => is_relevant
  | JailbreakOutput _ is_safe => is_safe
  | OtherOutput as_bool _ => as_bool
  end.

Definition reasoning_of (result : GuardrailOutput) : string :=
  match result with
  | RelevanceOutput reasoning _ => reasoning
  | JailbreakOutput reasoning _ => reasoning
  | OtherOutput _ as_str => as_str
  end.

Definition guardrail_check (guardrail_name message : string)
    (result : GuardrailOutput) : Check.t :=
  {| Check.name := guardrail_name;
     Check.input := message;
     Check.reasoning := reasoning_of result;
     Check.passed := passed_of result |}.

(** The state of the guardrail loop when it ends: the checks recorded so
    far, whether it ended by the early [return], and its effects. *)
Record GuardrailPhase : Type := {
  guardrail_results : list Check.t;
  rejected : bool;
  guardrail_effects : list Effect;
}.

Definition after_effects (effects : list Effect) (p : GuardrailPhase) : GuardrailPhase :=
  {| guardrail_results := guardrail_results p;
     rejected := rejected p;
     guardrail_effects := effects ++ guardrail_effects p |}.

(** [for guardrail_name in agent.input_guardrails: ...], started with the
    checks recorded so far. *)
Fixpoint guardrail_loop (context : AirlineAgentContext) (message : string)
    (names : list string) (results : list Check.t) : GuardrailPhase :=
  match names with
  | [] => {| guardrail_results := results; rejected := false; guardrail_effects := [] |}
  | guardrail_name :: rest =>
      match all_guardrails !! guardrail_name with
      | None => guardrail_loop context message rest results
      | Some guardrail_func =>
          match guardrail_func context message with
          | Returned result =>
              let results' := results ++ [guardrail_check guardrail_name message result] in
              if negb (passed_of result) then
                {| guardrail_results := results'; rejected := true;
                   guardrail_effects := [CallGuardrail guardrail_name message] |}
              else
                after_effects [CallGuardrail guardrail_name message]
                  (guardrail_loop context message rest results')
          | Raised e =>
              after_effects
                [CallGuardrail guardrail_name message;
                 LogError ("Error running guardrail " +:+ guardrail_name +:+ ": " +:+ e)]
                (guardrail_loop context message rest results)
          end
      end
  end.

Definition handoff_keywords_schedule : list string :=
  ["schedule"; "session"; "speaker"; "event"; "time"; "date"; "july"; "room";
   "track"; "when"; "what time"].

Definition handoff_keywords_networking : list string :=
  ["attendee"; "people"; "business"; "company"; "network"; "connect"; "find";
   "who"; "attendees"; "businesses"].

(** The [if]/[elif] on the two scores; [None] is the initial value of
    [target_agent]. *)
Definition decide_handoff (schedule_score networking_score : nat) : option string :=
  if Nat.ltb networking_score schedule_score && Nat.ltb 0 schedule_score then
    Some "Schedule Agent"
  else if Nat.ltb 0 networking_score then
    Some "Networking Agent"
  else None.

Definition schedule_score (message_lower : string) : nat :=
  Py.sum_ones handoff_keywords_schedule message_lower.

Definition networking_score (message_lower : string) : nat :=
  Py.sum_ones handoff_keywords_networking message_lower.

(** The value of [target_agent] after the routing block. *)
Definition target_agent_for (agent_name message_lower : string) : option string :=
  if String.eqb agent_name "Triage Agent" then
    decide_handoff (schedule_score message_lower) (networking_score message_lower)
  else None.

(** The loop of the Schedule Agent branch over [agent.tools].  A call that
    raises is logged and recorded as an error result, and the loop goes on
    (the [break] is inside the [try]). *)
Fixpoint schedule_tool_loop (context : AirlineAgentContext) (message : string)
    (agent_tools : list Tool) : list ToolResult.t * list Effect :=
  match agent_tools with
  | [] => ([], [])
  | tool :: rest =>
      if String.eqb (tool_name tool) "get_conference_schedule_tool" then
        match tool_call tool context (QueryArgs message) with
        | Returned result =>
            ([{| ToolResult.tool_name := tool_name tool; ToolResult.result := result |}],
             [CallTool (tool_name tool) (QueryArgs message)])
        | Raised e =>
            let '(tool_results, effects) := schedule_tool_loop context message rest in
            ({| ToolResult.tool_name := tool_name tool;
                ToolResult.result := "Error: " +:+ e |} :: tool_results,
             CallTool (tool_name tool) (QueryArgs message)
               :: LogError ("Error executing tool " +:+ tool_name tool +:+ ": " +:+ e)
               :: effects)
        end
      else schedule_tool_loop context message rest
  end.

(** The three loops of the Networking Agent branch have one shape: call the
    tools named [wanted] with [args] until one returns.  A call that raises
    is logged and nothing is recorded for it. *)
Fixpoint networking_tool_loop (context : AirlineAgentContext) (wanted : string)
    (args : ToolArgs) (agent_tools : list Tool) : list ToolResult.t * list Effect :=
  match agent_tools with
  | [] => ([], [])
  | tool :: rest =>
      if String.eqb (tool_name tool) wanted then
        match tool_call tool context args with
        | Returned result =>
            ([{| ToolResult.tool_name := tool_name tool; ToolResult.result := result |}],
             [CallTool (tool_name tool) args])
        | Raised e =>
            let '(tool_results, effects) :=
              networking_tool_loop context wanted args rest in
            (tool_results,
             CallTool (tool_name tool) args
               :: LogError ("Error executing tool " +:+ tool_name tool +:+ ": " +:+ e)
               :: effects)
        end
      else networking_tool_loop context wanted args rest
  end.

Definition add_business_phrases : list string :=
  ["add business"; "register business"; "add my business"; "register my company"].

(** [for line in lines: if ':' in line: key, value = line.split(':', 1); ...].
    Under the guard [split_once] returns the two pieces. *)
Fixpoint parse_business_data (lines : list string)
    (business_data : gmap string string) : gmap string string :=
  match lines with
  | [] => business_data
  | line :: rest =>
      if Py.str_in ":" line then
        match Py.split_once ":"%char line with
        | Some (key, value) =>
            let key := Py.replace " "%char "_"%char (lower (strip key)) in
            let value := strip value in
            parse_business_data rest (<[key := value]> business_data)
        | None => parse_business_data rest business_data
        end
      else parse_business_data rest business_data
  end.

(** The keyword arguments read from [business_data] with [dict.get]. *)
Definition business_args (business_data : gmap string string) : BusinessArgs :=
  {| company_name := default "" (business_data !! "company_name");
     industry_sector := default "" (business_data !! "industry_sector");
     sub_sector := default "" (business_data !! "sub-sector");
     location := default "" (business_data !! "location");
     position_title := default "" (business_data !! "position_title");
     legal_structure := default "" (business_data !! "legal_structure");
     establishment_year := default "" (business_data !! "establishment_year");
     products_or_services := default "" (business_data !! "products/services");
     brief_description := default "" (business_data !! "brief_description");
     website := business_data !! "website" |}.

Definition nonempty {A : Type} (l : list A) : bool :=
  match l with [] => false | _ => true end.

(** "Execute tools if this is a specialist agent": the value of
    [tool_results] and the effects of the calls. *)
Definition execute_tools (agent : Agent) (context : AirlineAgentContext)
    (message message_lower : string) : list ToolResult.t * list Effect :=
  if String.eqb (name agent) "Schedule Agent" && nonempty (tools agent) then
    schedule_tool_loop context message (tools agent)
  else if String.eqb (name agent) "Networking Agent" && nonempty (tools agent) then
    if Py.any_in add_business_phrases message_lower then
      networking_tool_loop context "display_business_form_tool" NoArgs (tools agent)
    else if Py.str_in "company name:" message_lower
            && Py.str_in "industry sector:" message_lower then
      let lines := Py.split "010"%char message in
      let business_data := parse_business_data lines ∅ in
      networking_tool_loop context "add_business_tool"
        (AddBusinessArgs (business_args business_data)) (tools agent)
    else
      networking_tool_loop context "search_attendees_tool" (QueryArgs message)
        (tools agent)
  else ([], []).

(** "Generate response": the reply text and the events. *)
Definition generate_response (agent_name : string) (target_agent : option string)
    (tool_results : list ToolResult.t) : string * list Event.t :=
  match target_agent with
  | Some target =>
      ("I'll connect you with our " +:+ target +:+
         " who can help you with that. One moment please...",
       [{| Event.type := "handoff";
           Event.agent := agent_name;
           Event.content := "Handing off to " +:+ target;
           Event.metadata := Event.HandoffMetadata agent_name target |}])
  | None =>
      match tool_results with
      | first :: _ =>
          (ToolResult.result first,
           [{| Event.type := "tool_call";
               Event.agent := agent_name;
               Event.content := "Executed " +:+ ToolResult.tool_name first;
               Event.metadata :=
                 Event.ToolCallMetadata (ToolResult.tool_name first)
                   (ToolResult.result first) |}])
      | [] =>
          (if String.eqb agent_name "Triage Agent" then triage_default_text
           else specialist_default_text,
           [])
      end
  end.

(** [run_single_agent_turn(agent, context, message, conversation_data)];
    the last argument is not used by the body. *)
Definition run_single_agent_turn (agent : Agent) (context : AirlineAgentContext)
    (message : string) : Turn.t * list Effect :=
  let phase := guardrail_loop context message (input_guardrails agent) [] in
  if rejected phase then
    ({| Turn.messages := [AgentMessage rejection_text (name agent)];
        Turn.events := [];
        Turn.guardrails := guardrail_results phase;
        Turn.handoff := None |},
     guardrail_effects phase)
  else
    match instructions agent context with
    | Raised e =>
        ({| Turn.messages := [AgentMessage apology_text (name agent)];
            Turn.events := [];
            Turn.guardrails := guardrail_results phase;
            Turn.handoff := None |},
         guardrail_effects phase
           ++ [LogError ("Error running agent " +:+ name agent +:+ ": " +:+ e)])
    | Returned _ =>
        let message_lower := lower message in
        let target_agent := target_agent_for (name agent) message_lower in
        let '(tool_results, tool_effects) :=
          execute_tools agent context message message_lower in
        let '(response_content, events) :=
          generate_response (name agent) target_agent tool_results in
        ({| Turn.messages := [AgentMessage response_content (name agent)];
            Turn.events := events;
            Turn.guardrails := guardrail_results phase;
            Turn.handoff := target_agent |},
         guardrail_effects phase ++ tool_effects)
    end.

(** The dictionary stored for a new conversation. *)
Definition new_conversation : Conversation.t :=
  {| Conversation.context := AirlineAgentContext_new;
     Conversation.current_agent := name Main.starting_agent;
     Conversation.messages := [];
     Conversation.events := [];
     Conversation.guardrails := [];
     Conversation.customer_info := None |}.

(** [get_or_create_conversation(conversation_id)]: the identifier returned
    and the store afterwards.  [new_id] is the next value of
    [str(uuid.uuid4())]. *)
Definition get_or_create_conversation (conversation_id : option string)
    (w : World) : string * World :=
  let known :=
    match conversation_id with
    | Some cid => Py.truthy cid && bool_decide (is_Some (conversations w !! cid))
    | None => false
    end in
  match conversation_id, known with
  | Some cid, true => (cid, w)
  | _, _ =>
      let new_id := uuid4 (uuid_count w) in
      (new_id,
       {| conversations := <[new_id := new_conversation]> (conversations w);
          uuid_count := S (uuid_count w) |})
  end.

(** The [user] returned by the directory when it is true as a condition:
    [None] and the empty dictionary are false. *)
Definition truthy_user (user : option User) : option User :=
  match user with
  | Some row => if Nat.eqb (size row) 0 then None else Some row
  | None => None
  end.

(** The six assignments to the attributes of the context. *)
Definition context_of_user (user : User) : AirlineAgentContext :=
  {| passenger_name := user !! "name";
     customer_id := user !! "id";
     account_number := user !! "account_number";
     customer_email := user !! "email";
     is_conference_attendee :=
       Some (default (PBool true) (user !! "is_conference_attendee"));
     conference_name := user !! "conference_name" |}.

(** "Load user context if account_number provided": the context, the value
    of [customer_info] and the effects. *)
Definition load_user_context (account : option string)
    (conversation_data : Conversation.t)
    : AirlineAgentContext * option User * list Effect :=
  let context := Conversation.context conversation_data in
  let found (user : option User) (effects : list Effect) :=
    match truthy_user user with
    | Some row => (context_of_user row, Some row, effects)
    | None => (context, None, effects)
    end in
  let failed (e : string) (effects : list Effect) :=
    (context, @None User,
     effects ++ [LogError ("Error loading user context: " +:+ e)]) in
  match account with
  | Some acc =>
      if Py.truthy acc then
        let by_id := [CallDirectory "get_user_by_registration_id" acc] in
        match get_user_by_registration_id acc with
        | Raised e => failed e by_id
        | Returned user =>
            match truthy_user user with
            | Some _ => found user by_id
            | None =>
                let by_qr := by_id ++ [CallDirectory "get_user_by_qr_code" acc] in
                match get_user_by_qr_code acc with
                | Raised e => failed e by_qr
                | Returned user => found user by_qr
                end
            end
        end
      else (context, Conversation.customer_info conversation_data, [])
  | None => (context, Conversation.customer_info conversation_data, [])
  end.

(** [next((a for a in all_agents if a.name == agent_name), None)] *)
Definition find_agent (agent_name : string) : option Agent :=
  List.find (fun a => String.eqb (name a) agent_name) Main.all_agents.

(** "Handle handoff": the name stored in [current_agent], the combined
    result, and the effects of the second step. *)
Definition handle_handoff (current_agent_name : string) (result : Turn.t)
    (context : AirlineAgentContext) (message : string)
    : string * Turn.t * list Effect :=
  match Turn.handoff result with
  | Some target_agent_name =>
      if Py.truthy target_agent_name then
        match find_agent target_agent_name with
        | Some target_agent =>
            let '(target_result, effects) :=
              run_single_agent_turn target_agent context message in
            (target_agent_name,
             {| Turn.messages := Turn.messages result ++ Turn.messages target_result;
                Turn.events := Turn.events result ++ Turn.events target_result;
                Turn.guardrails := Turn.guardrails result ++ Turn.guardrails target_result;
                Turn.handoff := Turn.handoff result |},
             effects)
        | None => (current_agent_name, result, [])
        end
      else (current_agent_name, result, [])
  | None => (current_agent_name, result, [])
  end.

(** The [/chat] endpoint.  [Raised] stands for the [HTTPException] of the
    outer handler. *)
Definition chat (request : ChatRequest.t) (w : World)
    : World * Outcome ChatResponse.t * list Effect :=
  let message := ChatRequest.message request in
  let '(conversation_id, w) :=
    get_or_create_conversation (ChatRequest.conversation_id request) w in
  match conversations w !! conversation_id with
  | None => (w, Raised ("'" +:+ conversation_id +:+ "'"), [])
  | Some conversation_data =>
      let '(context, customer_info, user_effects) :=
        load_user_context (ChatRequest.account_number request) conversation_data in
      match Main.all_agents with
      | [] =>
          (w, Raised "list index out of range", user_effects)
      | first_agent :: _ =>
          let current_agent_name := Conversation.current_agent conversation_data in
          let current_agent := default first_agent (find_agent current_agent_name) in
          let user_message := UserMessage message in
          let '(result, effects) := run_single_agent_turn current_agent context message in
          let '(current_agent_name, result, target_effects) :=
            handle_handoff current_agent_name result context message in
          let conversation_data :=
            {| Conversation.context := context;
               Conversation.current_agent := current_agent_name;
               Conversation.messages :=
                 (Conversation.messages conversation_data ++ [user_message])
                   ++ Turn.messages result;
               Conversation.events :=
                 Conversation.events conversation_data ++ Turn.events result;
               Conversation.guardrails :=
                 Conversation.guardrails conversation_data ++ Turn.guardrails result;
               Conversation.customer_info :=
                 match customer_info with
                 | Some info => Some info
                 | None => Conversation.customer_info conversation_data
                 end |} in
          ({| conversations := <[conversation_id := conversation_data]> (conversations w);
              uuid_count := uuid_count w |},
           Returned
             {| ChatResponse.conversation_id := conversation_id;
                ChatResponse.current_agent := current_agent_name;
                ChatResponse.messages := Turn.messages result;
                ChatResponse.events := Turn.events result;
                ChatResponse.context := context;
                ChatResponse.guardrails := Turn.guardrails result;
                ChatResponse.customer_info := customer_info |},
           user_effects ++ effects ++ target_effects)
      end
  end.

(** The store after a sequence of requests, served one after the other. *)
Fixpoint serve (requests : list ChatRequest.t) (w : World) : World :=
  match requests with
  | [] => w
  | request :: rest => serve rest (chat request w).1.1
  end.

End WithRuntime.
End Api.

(** ** The lookup endpoints of api.py and the tools that write

    [get_user_info], [get_customer_info] and [get_booking_info] of [api.py],
    [get_user_info_tool] of [main.py] with its effect on the context, and
    [add_business_tool] of [conference_agents_definitions.py]. *)

(** The calls of [database.db_client] made by these functions besides the
    two lookups of [Runtime]; each returns or raises. *)
Class Database : Type := {
  get_customer_by_account_number : string -> Outcome (option User);
  get_bookings_by_customer_id : PyVal -> Outcome (list User);
  get_booking_by_confirmation : string -> Outcome (option User);
  add_business : PyVal -> gmap string string -> Outcome bool;
}.

(** What an endpoint does: it returns a body or raises an [HTTPException]. *)
Inductive Http (A : Type) : Type :=
| Ok (body : A)
| HTTPException (status_code : nat) (detail : string).
Arguments Ok {A} body.
Arguments HTTPException {A} status_code detail.

Module CustomerInfoResponse.
Record t : Type := {
  customer : option User;
  bookings : list User;
  current_booking : option User;
}.
End CustomerInfoResponse.

(** [str(v)], as an f-string formats a value. *)
Definition py_str (v : PyVal) : string :=
  match v with
  | PStr s => s
  | PBool true => "True"
  | PBool false => "False"
  end.

(** The text of [d.get(key)] in an f-string; a missing key prints [None]. *)
Definition format_value (v : option PyVal) : string :=
  match v with
  | Some value => py_str value
  | None => "None"
  end.

(** The value itself when it is true as a condition: a non-empty string or
    [True]. *)
Definition truthy_value (v : option PyVal) : option PyVal :=
  match v with
  | Some (PStr s) => if Py.truthy s then v else None
  | Some (PBool true) => v
  | Some (PBool false) => None
  | None => None
  end.

Module Endpoints.
Section WithRuntime.
Context `{Runtime} `{Database}.

(** [GET /user/{identifier}] *)
Definition get_user_info (identifier : string) : Http User * list Effect :=
  let by_id := [CallDirectory "get_user_by_registration_id" identifier] in
  let failed (e : string) (effects : list Effect) :=
    (@HTTPException User 500 e,
     effects ++ [LogError ("Error getting user info: " +:+ e)]) in
  match get_user_by_registration_id identifier with
  | Raised e => failed e by_id
  | Returned user =>
      match Api.truthy_user user with
      | Some row => (Ok row, by_id)
      | None =>
          let by_qr := by_id ++ [CallDirectory "get_user_by_qr_code" identifier] in
          match get_user_by_qr_code identifier with
          | Raised e => failed e by_qr
          | Returned user =>
              match Api.truthy_user user with
              | Some row => (Ok row, by_qr)
              | None => (HTTPException 404 "User not found", by_qr)
              end
          end
      end
  end.

(** [GET /customer/{account_number}] *)
Definition get_customer_info (account : string)
    : Http CustomerInfoResponse.t * list Effect :=
  let by_account := [CallDirectory "get_customer_by_account_number" account] in
  let failed (e : string) (effects : list Effect) :=
    (@HTTPException CustomerInfoResponse.t 500 e,
     effects ++ [LogError ("Error getting customer info: " +:+ e)]) in
  match get_customer_by_account_number account with
  | Raised e => failed e by_account
  | Returned customer =>
      match Api.truthy_user customer with
      | None => (HTTPException 404 "Customer not found", by_account)
      | Some row =>
          let customer_id := default (PStr "") (row !! "id") in
          let by_customer :=
            by_account
              ++ [CallDirectory "get_bookings_by_customer_id" (py_str customer_id)] in
          match get_bookings_by_customer_id customer_id with
          | Raised e => failed e by_customer
          | Returned bookings =>
              (Ok {| CustomerInfoResponse.customer := Some row;
                     CustomerInfoResponse.bookings := bookings;
                     CustomerInfoResponse.current_booking := head bookings |},
               by_customer)
          end
      end
  end.

(** [GET /booking/{confirmation_number}] *)
Definition get_booking_info (confirmation_number : string)
    : Http User * list Effect :=
  let by_confirmation :=
    [CallDirectory "get_booking_by_confirmation" confirmation_number] in
  match get_booking_by_confirmation confirmation_number with
  | Raised e =>
      (HTTPException 500 e,
       by_confirmation ++ [LogError ("Error getting booking info: " +:+ e)])
  | Returned booking =>
      match Api.truthy_user booking with
      | Some row => (Ok row, by_confirmation)
      | None => (HTTPException 404 "Booking not found", by_confirmation)
      end
  end.

End WithRuntime.
End Endpoints.

Module Tools.
Section WithRuntime.
Context `{Runtime} `{Database}.

(** The body of [get_user_info_tool] of [main.py]: the text returned, the
    context afterwards, and the effects. *)
Definition get_user_info_tool (context : AirlineAgentContext) (identifier : string)
    : string * AirlineAgentContext * list Effect :=
  let by_id := [CallDirectory "get_user_by_registration_id" identifier] in
  let failed (e : string) (effects : list Effect) :=
    ("Error retrieving user information: " +:+ e, context,
     effects ++ [LogError ("Error getting user info: " +:+ e)]) in
  let found (row : User) (effects : list Effect) :=
    ("Welcome " +:+ format_value (row !! "name")
       +:+ "! I have loaded your conference information.",
     Api.context_of_user row, effects) in
  let missing (effects : list Effect) :=
    ("No user found with identifier '" +:+ identifier
       +:+ "'. Please check your registration ID or QR code.",
     context, effects) in
  match get_user_by_registration_id identifier with
  | Raised e => failed e by_id
  | Returned user =>
      match Api.truthy_user user with
      | Some row => found row by_id
      | None =>
          let by_qr := by_id ++ [CallDirectory "get_user_by_qr_code" identifier] in
          match get_user_by_qr_code identifier with
          | Raised e => failed e by_qr
          | Returned user =>
              match Api.truthy_user user with
              | Some row => found row by_qr
              | None => missing by_qr
              end
          end
      end
  end.

(** The dictionary [business_details] of [add_business_tool]. *)
Definition business_details (fields : BusinessArgs) : gmap string string :=
  let details :=
    <["companyName" := company_name fields]>
      (<["industrySector" := industry_sector fields]>
         (<["subSector" := sub_sector fields]>
            (<["location" := location fields]>
               (<["positionTitle" := position_title fields]>
                  (<["legalStructure" := legal_structure fields]>
                     (<["establishmentYear" := establishment_year fields]>
                        (<["productsOrServices" := products_or_services fields]>
                           (<["briefDescription" := brief_description fields]> ∅))))))))
  in
  match website fields with
  | Some web => if Py.truthy web then <["web" := web]> details else details
  | None => details
  end.

Definition added_text (company : string) : string :=
  "âœ… Successfully added business '" +:+ company +:+ "' to your profile! The business is now listed in the business directory and available for networking.".

Definition not_added_text (company : string) : string :=
  "âŒ Failed to add business '" +:+ company +:+ "'. Please try again or contact support.".

(** The body of [add_business_tool]: the text returned and the effects. *)
Definition add_business_tool (context : AirlineAgentContext) (fields : BusinessArgs)
    : string * list Effect :=
  match truthy_value (customer_id context) with
  | None =>
      ("Unable to add business: No user context available. Please log in first.", [])
  | Some user_id =>
      let called := [CallDirectory "add_business" (py_str user_id)] in
      match add_business user_id (business_details fields) with
      | Returned success =>
          (if success then added_text (company_name fields)
           else not_added_text (company_name fields),
           called)
      | Raised e => ("Error adding business: " +:+ e, called)
      end
  end.

End WithRuntime.
End Tools.

(** ** A runtime for ASCII text

    [str.lower] and [str.strip] restricted to ASCII input, a directory with
    one registered user, tools that answer with their own name, and the
    identifiers [c], [cc], [ccc], ... *)

Definition ascii_lower_char (c : ascii) : ascii :=
  let n := nat_of_ascii c in
  if Nat.leb 65 n && Nat.leb n 90 then ascii_of_nat (n + 32) else c.

Fixpoint ascii_lower (s : string) : string :=
  match s with
  | EmptyString => EmptyString
  | String c rest => String (ascii_lower_char c) (ascii_lower rest)
  end.

(** [c.isspace()] for an ASCII character: tab to carriage return, the four
    separators [0x1c] to [0x1f], and the space. *)
Definition ascii_is_space (c : ascii) : bool :=
  let n := nat_of_ascii c in
  (Nat.leb 9 n && Nat.leb n 13) || (Nat.leb 28 n && Nat.leb n 32).

Fixpoint ascii_lstrip (s : string) : string :=
  match s with
  | EmptyString => EmptyString
  | String c rest => if ascii_is_space c then ascii_lstrip rest else s
  end.

Fixpoint ascii_rstrip (s : string) : string :=
  match s with
  | EmptyString => EmptyString
  | String c rest =>
      match ascii_rstrip rest with
      | EmptyString => if ascii_is_space c then EmptyString else String c EmptyString
      | kept => String c kept
      end
  end.

Definition ascii_strip (s : string) : string := ascii_rstrip (ascii_lstrip s).

Fixpoint ascii_uuid4 (n : nat) : string :=
  match n with
  | 0 => "c"
  | S k => String "c"%char (ascii_uuid4 k)
  end.

Definition ascii_directory (identifier : string) : Outcome (option User) :=
  if String.eqb identifier "REG-1" then
    Returned (Some (<["name" := PStr "Ada"]> (<["id" := PStr "u1"]> ∅)))
  else Returned None.

Definition ascii_runtime : Runtime :=
  {| lower := ascii_lower;
     strip := ascii_strip;
     tool_text := fun fn_name _ _ => fn_name;
     get_user_by_registration_id := ascii_directory;
     get_user_by_qr_code := fun _ => Returned None;
     uuid4 := ascii_uuid4 |}.

(** ** Vocabulary of the statements *)

Section Vocabulary.
Context `{Runtime}.
Variable all_guardrails : gmap string Guardrail.

(** The guardrail registered under [guardrail_name], called on the message,
    returns a result that is not passed. *)
Definition not_passed (context : AirlineAgentContext) (message : string)
    (guardrail_name : string) : bool :=
  match all_guardrails !! guardrail_name with
  | Some guardrail_func =>
      match guardrail_func context message with
      | Returned result => negb (Api.passed_of result)
      | Raised _ => false
      end
  | None => false
  end.

(** What evaluating one entry of the guardrail list does when it does not
    reject: nothing for a name that is not registered, a call for a
    guardrail that returns, a call and an error log for one that raises. *)
Definition evaluation_effects (context : AirlineAgentContext) (message : string)
    (guardrail_name : string) : list Effect :=
  match all_guardrails !! guardrail_name with
  | Some guardrail_func =>
      match guardrail_func context message with
      | Returned _ => [CallGuardrail guardrail_name message]
      | Raised e =>
          [CallGuardrail guardrail_name message;
           LogError ("Error running guardrail " +:+ guardrail_name +:+ ": " +:+ e)]
      end
  | None => []
  end.

(** The check recorded for one entry: one check for a guardrail that
    returns, none otherwise. *)
Definition evaluation_checks (context : AirlineAgentContext) (message : string)
    (guardrail_name : string) : list Check.t :=
  match all_guardrails !! guardrail_name with
  | Some guardrail_func =>
      match guardrail_func context message with
      | Returned result => [Api.guardrail_check guardrail_name message result]
      | Raised _ => []
      end
  | None => []
  end.

(** The agent with another guardrail list. *)
Definition with_input_guardrails (agent : Agent) (names : list string) : Agent :=
  {| name := name agent;
     handoff_description := handoff_description agent;
     instructions := instructions agent;
     tools := tools agent;
     handoffs := handoffs agent;
     input_guardrails := names |}.

(** The effects of a step after its guardrail loop: the tool calls, or the
    error log when the instructions raise. *)
Definition logic_effects (agent : Agent) (context : AirlineAgentContext)
    (message : string) : list Effect :=
  match instructions agent context with
  | Returned _ => (Api.execute_tools agent context message (lower message)).2
  | Raised e => [LogError ("Error running agent " +:+ name agent +:+ ": " +:+ e)]
  end.

(** The agent that [chat] runs for a stored conversation. *)
Definition agent_of (conversation_data : Conversation.t) : Agent :=
  default Main.triage_agent
    (Api.find_agent (Conversation.current_agent conversation_data)).

(** The context that [chat] passes to the agent. *)
Definition context_of (request : ChatRequest.t) (conversation_data : Conversation.t)
    : AirlineAgentContext :=
  (Api.load_user_context (ChatRequest.account_number request) conversation_data).1.1.

(** The value of [customer_info] in [chat], and the effects of loading it. *)
Definition customer_info_of (request : ChatRequest.t)
    (conversation_data : Conversation.t) : option User :=
  (Api.load_user_context (ChatRequest.account_number request) conversation_data).1.2.

Definition directory_effects (request : ChatRequest.t)
    (conversation_data : Conversation.t) : list Effect :=
  (Api.load_user_context (ChatRequest.account_number request) conversation_data).2.

(** Every key of the store is one of the identifiers drawn so far. *)
Definition keys_drawn (w : World) : Prop :=
  forall cid, is_Some (conversations w !! cid) ->
    exists i, i < uuid_count w /\ cid = uuid4 i.


End Vocabulary.

(** ** Inputs of the concrete evaluations *)



(** A callable named [get_conference_schedule_tool] whose call raises. *)
Definition failing_schedule_tool : Tool :=
  {| tool_name := "get_conference_schedule_tool";
     tool_call := fun _ _ => Raised "directory unavailable" |}.

(** The agent with another tool list. *)
Definition with_tools (agent : Agent) (agent_tools : list Tool) : Agent :=
  {| name := name agent;
     handoff_description := handoff_description agent;
     instructions := instructions agent;
     tools := agent_tools;
     handoffs := handoffs agent;
     input_guardrails := input_guardrails agent |}.

(** A question about the schedule, sent without a conversation identifier. *)
Definition schedule_request : ChatRequest.t :=
  {| ChatRequest.message := "What sessions are on July 15th?";
     ChatRequest.conversation_id := None;
     ChatRequest.account_number := None |}.

(** An off-topic message sent to the conversation [c]. *)
Definition joke_request : ChatRequest.t :=
  {| ChatRequest.message := "tell me a joke";
     ChatRequest.conversation_id := Some "c";
     ChatRequest.account_number := None |}.

(** The table of the program with a relevance guardrail whose call raises. *)
Definition raising_guardrails : gmap string Guardrail :=
  <["relevance_guardrail" := fun _ _ => Raised "timeout"]>
    (@Main.all_guardrails ascii_runtime).

(** The store after one conversation was created. *)
Definition one_conversation : World :=
  (@Api.get_or_create_conversation ascii_runtime None initial_world).2.


(** A database with one customer, [ACC-1], who has two bookings; adding a
    business succeeds for the user [u1], fails for [u2] and raises for any
    other user. *)
Definition ascii_database : Database :=
  {| get_customer_by_account_number := fun account =>
       if String.eqb account "ACC-1" then
         Returned (Some (<["id" := PStr "u1"]> (<["name" := PStr "Ada"]> ∅)))
       else Returned None;
     get_bookings_by_customer_id := fun customer_id =>
       match customer_id with
       | PStr "u1" =>
           Returned [<["confirmation" := PStr "B1"]> ∅; <["confirmation" := PStr "B2"]> ∅]
       | _ => Returned []
       end;
     get_booking_by_confirmation := fun confirmation =>
       if String.eqb confirmation "B1" then
         Returned (Some (<["confirmation" := PStr "B1"]> ∅))
       else Raised "connection lost";
     add_business := fun user_id _ =>
       match user_id with
       | PStr "u1" => Returned true
       | PStr "u2" => Returned false
       | _ => Raised "connection lost"
       end |}.

(** ** Message logs *)

(** A message log made of turns: the user's message, then one or two
    replies of agents. *)
Inductive turns : list Message -> Prop :=
| turns_nil : turns []
| turns_snoc (log : list Message) (content : string) (replies : list Message) :
    turns log ->
    1 <= List.length replies <= 2 ->
    Forall (fun m => exists text agent, m = AgentMessage text agent) replies ->
    turns (log ++ UserMessage content :: replies).

(** The text a tool call stands for in the Schedule Agent branch. *)
Definition outcome_text (outcome : Outcome string) : string :=
  match outcome with
  | Returned result => result
  | Raised e => "Error: " +:+ e
  end.

(** The Schedule Agent with instructions that raise. *)
Definition broken_agent : Agent :=
  {| name := "Schedule Agent";
     handoff_description := "";
     instructions := fun _ => Raised "boom";
     tools := [];
     handoffs := [];
     input_guardrails := [] |}.



Definition follow_up_request : ChatRequest.t :=
  {| ChatRequest.message := "hello";
     ChatRequest.conversation_id := Some "c";
     ChatRequest.account_number := None |}.

(** The store after the question about the schedule was served. *)
Definition after_schedule_request : World :=
  (@Api.chat ascii_runtime (@Main.all_guardrails ascii_runtime) schedule_request
     initial_world).1.1.

(** * Properties *)



(** ** Strings *)

Lemma append_nil (s : string) : "" +:+ s = s.
Proof. reflexivity. Qed.

Lemma append_cons (c : ascii) (s t : string) :
  String c s +:+ t = String c (s +:+ t).
Proof. reflexivity. Qed.

Lemma prefix_append (needle hay : string) :
  String.prefix needle hay = true <-> exists post, hay = needle +:+ post.
Proof.
  revert hay. induction needle as [|c needle IH]; intros hay; simpl.
  - split; [intros _; by exists hay | intros _; by destruct hay].
  - destruct hay as [|d hay]; simpl.
    + split; [done | intros [post Hpost]; discriminate].
    + setoid_rewrite append_cons.
      destruct (Ascii.ascii_dec c d) as [->|Hne].
      * rewrite IH. split; intros [post Hpost]; exists post; congruence.
      * split; [done | intros [post Hpost]; congruence].
Qed.

Lemma str_in_occurs (needle hay : string) :
  Py.str_in needle hay = true <-> Py.occurs_in needle hay.
Proof.
  unfold Py.occurs_in. induction hay as [|c hay IH]; cbn [Py.str_in].
  - rewrite orb_false_r, prefix_append. split.
    + intros [post Hpost]. by exists "", post.
    + intros [pre [post Hpost]]. destruct pre; [by exists post | discriminate].
  - rewrite orb_true_iff, prefix_append, IH. split.
    + intros [[post Hpost]|[pre [post Hpost]]].
      * by exists "", post.
      * exists (String c pre), post. by rewrite append_cons, Hpost.
    + intros [[|d pre] [post Hpost]].
      * left. by exists post.
      * right. exists pre, post. rewrite append_cons in Hpost. congruence.
Qed.




(** The sum of ones is the number of keywords found in the text. *)
Lemma sum_ones_length (keywords : list string) (s : string) :
  Py.sum_ones keywords s
  = List.length (List.filter (fun k => Py.str_in k s) keywords).
Proof.
  unfold Py.sum_ones.
  induction (List.filter (fun k => Py.str_in k s) keywords) as [|k l IH];
    simpl; congruence.
Qed.

(** Under the guard [':' in line], [line.split(':', 1)] has two pieces. *)
Lemma split_once_guard (line : string) :
  Py.str_in ":" line = true <-> is_Some (Py.split_once ":"%char line).
Proof.
  induction line as [|c line IH]; cbn [Py.str_in Py.split_once].
  - split; [intros HH; cbn in HH; discriminate | intros [? ?]; discriminate].
  - destruct (Ascii.eqb_spec c ":"%char) as [->|Hne].
    + split; [by eexists |].
      intros _. apply orb_true_iff. left. apply prefix_append. by exists line.
    + replace (String.prefix ":" (String c line)) with false.
      * rewrite orb_false_l, IH.
        destruct (Py.split_once ":"%char line) as [[k v]|].
        -- split; by eexists.
        -- split; by intros [? ?].
      * symmetry. apply not_true_iff_false. rewrite prefix_append.
        intros [post Hpost]. rewrite append_cons in Hpost. congruence.
Qed.

(** ** The guardrail loop *)

Section Guardrails.
Context `{Runtime}.
Variable G : gmap string Guardrail.
Variables (context : AirlineAgentContext) (message : string).

Lemma after_effects_nil (p : Api.GuardrailPhase) : Api.after_effects [] p = p.
Proof. by destruct p. Qed.

Lemma after_effects_app (e1 e2 : list Effect) (p : Api.GuardrailPhase) :
  Api.after_effects e1 (Api.after_effects e2 p) = Api.after_effects (e1 ++ e2) p.
Proof. unfold Api.after_effects. simpl. by rewrite app_assoc. Qed.

(** An entry that does not reject contributes its effects and its check,
    and the loop goes on with the next entry. *)
Lemma guardrail_loop_step (g : string) (rest : list string) (acc : list Check.t) :
  not_passed G context message g = false ->
  Api.guardrail_loop G context message (g :: rest) acc
  = Api.after_effects (evaluation_effects G context message g)
      (Api.guardrail_loop G context message rest
         (acc ++ evaluation_checks G context message g)).
Proof.
  unfold not_passed, evaluation_effects, evaluation_checks. cbn [Api.guardrail_loop].
  destruct (G !! g) as [f|].
  - destruct (f context message) as [result|e].
    + intros Hpass. apply negb_false_iff in Hpass. by rewrite Hpass.
    + intros _. by rewrite app_nil_r.
  - intros _. by rewrite app_nil_r, after_effects_nil.
Qed.

Lemma guardrail_loop_open (pre rest : list string) (acc : list Check.t) :
  Forall (fun n => not_passed G context message n = false) pre ->
  Api.guardrail_loop G context message (pre ++ rest) acc
  = Api.after_effects (flat_map (evaluation_effects G context message) pre)
      (Api.guardrail_loop G context message rest
         (acc ++ flat_map (evaluation_checks G context message) pre)).
Proof.
  intros Hpre. revert acc. induction Hpre as [|g pre Hg Hpre IH]; intros acc.
  - simpl. by rewrite app_nil_r, after_effects_nil.
  - rewrite <- app_comm_cons, guardrail_loop_step by done.
    rewrite IH, after_effects_app. simpl. by rewrite <- app_assoc.
Qed.



(** The loop does not reject when no entry is not passed. *)
Lemma guardrail_loop_all_open (names : list string) (acc : list Check.t) :
  Forall (fun n => not_passed G context message n = false) names ->
  Api.guardrail_loop G context message names acc
  = {| Api.guardrail_results :=
         acc ++ flat_map (evaluation_checks G context message) names;
       Api.rejected := false;
       Api.guardrail_effects :=
         flat_map (evaluation_effects G context message) names |}.
Proof.
  intros Hall. rewrite <- (app_nil_r names) at 1.
  rewrite guardrail_loop_open by done. simpl.
  unfold Api.after_effects. simpl. by rewrite app_nil_r.
Qed.

(** The loop never calls a tool. *)
Lemma guardrail_loop_no_tool (names : list string) (acc : list Check.t)
    (tool : string) (args : ToolArgs) :
  CallTool tool args ∉ Api.guardrail_effects (Api.guardrail_loop G context message names acc).
Proof.
  revert acc. induction names as [|g names IH]; intros acc; cbn [Api.guardrail_loop].
  - simpl. apply not_elem_of_nil.
  - destruct (G !! g) as [f|]; [|apply IH].
    destruct (f context message) as [result|e].
    + destruct (negb (Api.passed_of result)); simpl.
      * intros Hin. apply list_elem_of_singleton in Hin. discriminate.
      * intros Hin. apply elem_of_cons in Hin as [Hin|Hin]; [discriminate|].
        by apply IH in Hin.
    + simpl. intros Hin.
      apply elem_of_cons in Hin as [Hin|Hin]; [discriminate|].
      apply elem_of_cons in Hin as [Hin|Hin]; [discriminate|].
      by apply IH in Hin.
Qed.

End Guardrails.

(** ** One agent step *)

Section Turn.
Context `{Runtime}.
Variable G : gmap string Guardrail.

(** The step of an agent whose guardrail loop ends by the early return. *)
Lemma turn_rejected (agent : Agent) (context : AirlineAgentContext) (message : string) :
  let phase := Api.guardrail_loop G context message (input_guardrails agent) [] in
  Api.rejected phase = true ->
  Api.run_single_agent_turn G agent context message
  = ({| Turn.messages := [AgentMessage Api.rejection_text (name agent)];
        Turn.events := [];
        Turn.guardrails := Api.guardrail_results phase;
        Turn.handoff := None |},
     Api.guardrail_effects phase).
Proof. intros phase Hrej. unfold Api.run_single_agent_turn. fold phase. by rewrite Hrej. Qed.

(** The step of an agent whose guardrail loop runs to its end and whose
    instructions do not raise. *)
Lemma turn_open (agent : Agent) (context : AirlineAgentContext) (message : string) :
  let phase := Api.guardrail_loop G context message (input_guardrails agent) [] in
  let target := Api.target_agent_for (name agent) (lower message) in
  let executed := Api.execute_tools agent context message (lower message) in
  let response := Api.generate_response (name agent) target executed.1 in
  Api.rejected phase = false ->
  (exists prompt, instructions agent context = Returned prompt) ->
  Api.run_single_agent_turn G agent context message
  = ({| Turn.messages := [AgentMessage response.1 (name agent)];
        Turn.events := response.2;
        Turn.guardrails := Api.guardrail_results phase;
        Turn.handoff := target |},
     Api.guardrail_effects phase ++ executed.2).
Proof.
  intros phase target executed response Hopen [prompt Hprompt].
  unfold Api.run_single_agent_turn. fold phase. rewrite Hopen, Hprompt.
  fold target. fold executed. destruct executed as [tool_results tool_effects] eqn:E.
  subst response. simpl.
  by destruct (Api.generate_response (name agent) target tool_results).
Qed.

(** Whatever the guardrails and the instructions do, a step hands off only
    to what the routing block computed. *)
Lemma turn_handoff (agent : Agent) (context : AirlineAgentContext) (message : string)
    (target : string) :
  Turn.handoff (Api.run_single_agent_turn G agent context message).1 = Some target ->
  Api.target_agent_for (name agent) (lower message) = Some target.
Proof.
  unfold Api.run_single_agent_turn.
  destruct (Api.rejected _); [done|].
  destruct (instructions agent context); [|done].
  destruct (Api.execute_tools _ _ _ _) as [tool_results tool_effects].
  by destruct (Api.generate_response _ _ _).
Qed.

(** Only an agent named Triage Agent routes, and only to the two
    specialists. *)
Lemma target_agent_for_cases (agent_name message_lower target : string) :
  Api.target_agent_for agent_name message_lower = Some target ->
  agent_name = "Triage Agent" /\
  (target = "Schedule Agent" \/ target = "Networking Agent").
Proof.
  unfold Api.target_agent_for, Api.decide_handoff.
  destruct (String.eqb_spec agent_name "Triage Agent") as [->|]; [|done].
  repeat case_match; naive_solver.
Qed.

End Turn.

(** C1: for every message handled by the Triage Agent, the two scores are
    the numbers of keywords of each class found as substrings of the
    lower-cased message; the target is the Schedule Agent exactly when the
    schedule score is positive and greater than the networking score,
    otherwise the Networking Agent exactly when the networking score is
    positive, otherwise there is no handoff; this target is the handoff of
    the step unless a guardrail rejected the message.  Scores (2,1) give the
    Schedule Agent, (1,1) the Networking Agent, (0,0) no handoff. *)
Theorem C1_router_decision `{Runtime} (G : gmap string Guardrail)
    (context : AirlineAgentContext) (message : string) :
  let message_lower := lower message in
  let found keywords :=
    List.length (List.filter (fun k => Py.str_in k message_lower) keywords) in
  let schedule_score := found Api.handoff_keywords_schedule in
  let networking_score := found Api.handoff_keywords_networking in
  let schedule_wins := networking_score < schedule_score /\ 0 < schedule_score in
  let target := Api.target_agent_for (name Main.triage_agent) message_lower in
  (forall k, Py.str_in k message_lower = true <-> Py.occurs_in k message_lower) /\
  Api.schedule_score message_lower = schedule_score /\
  Api.networking_score message_lower = networking_score /\
  (target = Some "Schedule Agent" <-> schedule_wins) /\
  (target = Some "Networking Agent" <-> ~ schedule_wins /\ 0 < networking_score) /\
  (target = None <-> ~ schedule_wins /\ ~ 0 < networking_score) /\
  Turn.handoff (Api.run_single_agent_turn G Main.triage_agent context message).1
  = (if Api.rejected
          (Api.guardrail_loop G context message (input_guardrails Main.triage_agent) [])
     then None else target) /\
  Api.decide_handoff 2 1 = Some "Schedule Agent" /\
  Api.decide_handoff 1 1 = Some "Networking Agent" /\
  Api.decide_handoff 0 0 = None.
Proof.
  intros message_lower found schedule_score networking_score schedule_wins target.
  assert (Api.schedule_score message_lower = schedule_score) as Hs
    by apply sum_ones_length.
  assert (Api.networking_score message_lower = networking_score) as Hn
    by apply sum_ones_length.
  split_and!; try done.
  - intros k. apply str_in_occurs.
  - subst target schedule_wins. unfold Api.target_agent_for, Api.decide_handoff. simpl.
    rewrite Hs, Hn.
    destruct (Nat.ltb_spec networking_score schedule_score);
      destruct (Nat.ltb_spec 0 schedule_score);
      destruct (Nat.ltb_spec 0 networking_score); simpl; split; (done || lia).
  - subst target schedule_wins. unfold Api.target_agent_for, Api.decide_handoff. simpl.
    rewrite Hs, Hn.
    destruct (Nat.ltb_spec networking_score schedule_score);
      destruct (Nat.ltb_spec 0 schedule_score);
      destruct (Nat.ltb_spec 0 networking_score); simpl; split;
      (done || lia || (intros; split; (done || lia))).
  - subst target schedule_wins. unfold Api.target_agent_for, Api.decide_handoff. simpl.
    rewrite Hs, Hn.
    destruct (Nat.ltb_spec networking_score schedule_score);
      destruct (Nat.ltb_spec 0 schedule_score);
      destruct (Nat.ltb_spec 0 networking_score); simpl; split;
      (done || lia || (intros; split; (done || lia))).
  - destruct (Api.rejected _) eqn:Hrej.
    + by rewrite turn_rejected.
    + rewrite turn_open; [done | done | by eexists].
Qed.

(** ** The conversation store and the endpoint *)

Section Chat.
Context `{Runtime}.
Variable G : gmap string Guardrail.

(** The two outcomes of [get_or_create_conversation]. *)
Lemma get_or_create_cases (conversation_id : option string) (w : World) :
  (exists cid, conversation_id = Some cid /\ cid <> "" /\
     is_Some (conversations w !! cid) /\
     Api.get_or_create_conversation conversation_id w = (cid, w)) \/
  ((forall cid, conversation_id = Some cid ->
      cid = "" \/ conversations w !! cid = None) /\
   Api.get_or_create_conversation conversation_id w
   = (uuid4 (uuid_count w),
      {| conversations :=
           <[uuid4 (uuid_count w) := Api.new_conversation]> (conversations w);
         uuid_count := S (uuid_count w) |})).
Proof.
  unfold Api.get_or_create_conversation.
  destruct conversation_id as [cid|]; [|right; split; [done | done]].
  destruct (Py.truthy cid) eqn:Ht; simpl.
  - destruct (bool_decide (is_Some (conversations w !! cid))) eqn:Hk.
    + left. exists cid. apply bool_decide_eq_true in Hk.
      split_and!; try done. by intros ->.
    + right. apply bool_decide_eq_false in Hk. split; [|done].
      intros ? [= <-]. right. by apply eq_None_not_Some.
  - right. split; [|done]. intros ? [= <-]. left. by destruct cid.
Qed.

(** The identifier returned is a key of the store returned. *)
Lemma get_or_create_lookup (conversation_id : option string) (w : World) :
  is_Some (conversations (Api.get_or_create_conversation conversation_id w).2
             !! (Api.get_or_create_conversation conversation_id w).1).
Proof.
  destruct (get_or_create_cases conversation_id w)
    as [(cid & _ & _ & Hk & ->)|[_ ->]]; simpl; [done|].
  rewrite lookup_insert_eq. by eexists.
Qed.

(** [chat] in terms of the steps it runs: the conversation [c] found for
    the request, the first step [r], and the handoff handling [h]. *)
Lemma chat_eq (request : ChatRequest.t) (w w1 : World) (cid : string)
    (c : Conversation.t) :
  Api.get_or_create_conversation (ChatRequest.conversation_id request) w = (cid, w1) ->
  conversations w1 !! cid = Some c ->
  let message := ChatRequest.message request in
  let context := context_of request c in
  let info := customer_info_of request c in
  let r := Api.run_single_agent_turn G (agent_of c) context message in
  let h := Api.handle_handoff G (Conversation.current_agent c) r.1 context message in
  Api.chat G request w
  = ({| conversations :=
          <[cid := {| Conversation.context := context;
                      Conversation.current_agent := h.1.1;
                      Conversation.messages :=
                        (Conversation.messages c ++ [UserMessage message])
                          ++ Turn.messages h.1.2;
                      Conversation.events :=
                        Conversation.events c ++ Turn.events h.1.2;
                      Conversation.guardrails :=
                        Conversation.guardrails c ++ Turn.guardrails h.1.2;
                      Conversation.customer_info :=
                        match info with
                        | Some user => Some user
                        | None => Conversation.customer_info c
                        end |}]> (conversations w1);
        uuid_count := uuid_count w1 |},
     Returned {| ChatResponse.conversation_id := cid;
                 ChatResponse.current_agent := h.1.1;
                 ChatResponse.messages := Turn.messages h.1.2;
                 ChatResponse.events := Turn.events h.1.2;
                 ChatResponse.context := context;
                 ChatResponse.guardrails := Turn.guardrails h.1.2;
                 ChatResponse.customer_info := info |},
     directory_effects request c ++ r.2 ++ h.2).
Proof.
  intros Hgoc Hc message context info r h.
  subst h r info context. unfold context_of, customer_info_of, directory_effects.
  unfold Api.chat. rewrite Hgoc, Hc.
  destruct (Api.load_user_context _ _) as [[context info] user_effects].
  change Main.all_agents with
    [Main.triage_agent; ConferenceAgents.schedule_agent; ConferenceAgents.networking_agent].
  cbv iota. fold (agent_of c). fold message. simpl.
  destruct (Api.run_single_agent_turn G (agent_of c) context message) as [r e].
  simpl. by destruct (Api.handle_handoff _ _ _ _ _) as [[n r'] e'].
Qed.

(** The endpoint always answers: the handler of the outer [try] is never
    reached. *)
Lemma chat_returns (request : ChatRequest.t) (w : World) :
  exists response, (Api.chat G request w).1.2 = Returned response.
Proof.
  pose proof (get_or_create_lookup (ChatRequest.conversation_id request) w) as [c Hc].
  destruct (Api.get_or_create_conversation _ w) as [cid w1] eqn:Hgoc.
  rewrite (chat_eq request w w1 cid c Hgoc Hc). by eexists.
Qed.

End Chat.

(** ** The tables of main.py *)

Section Tables.
Context `{Runtime}.





End Tables.


(** ** Rejection *)

Section Rejection.
Context `{Runtime}.
Variable G : gmap string Guardrail.



End Rejection.



(** ** A guardrail that raises *)

Section Raising.
Context `{Runtime}.
Variable G : gmap string Guardrail.
Variables (context : AirlineAgentContext) (message : string).

(** The effects of a step: those of the guardrail loop, then those of the
    agent logic unless the loop rejected. *)
Lemma turn_effects (agent : Agent) :
  let phase := Api.guardrail_loop G context message (input_guardrails agent) [] in
  (Api.run_single_agent_turn G agent context message).2
  = Api.guardrail_effects phase
      ++ (if Api.rejected phase then [] else logic_effects agent context message).
Proof.
  intros phase. unfold Api.run_single_agent_turn, logic_effects. fold phase.
  destruct (Api.rejected phase); [by rewrite app_nil_r|].
  destruct (instructions agent context); [|done].
  destruct (Api.execute_tools agent context message (lower message)).
  by destruct (Api.generate_response _ _ _).
Qed.

(** The result of a step depends on the guardrail list only through the
    checks recorded and the early return. *)
Lemma turn_result_congr (agent agent' : Agent) :
  name agent = name agent' ->
  instructions agent = instructions agent' ->
  tools agent = tools agent' ->
  let phase := Api.guardrail_loop G context message (input_guardrails agent) [] in
  let phase' := Api.guardrail_loop G context message (input_guardrails agent') [] in
  Api.guardrail_results phase = Api.guardrail_results phase' ->
  Api.rejected phase = Api.rejected phase' ->
  (Api.run_single_agent_turn G agent context message).1
  = (Api.run_single_agent_turn G agent' context message).1.
Proof.
  intros Hname Hinstr Htools phase phase' Hres Hrej.
  unfold Api.run_single_agent_turn, Api.execute_tools. fold phase phase'.
  rewrite Hname, Hinstr, Htools, Hres, Hrej.
  destruct (Api.rejected phase'); [done|].
  destruct (instructions agent' context); [|done].
  repeat case_match; simplify_eq; done.
Qed.

(** An entry whose guardrail raises leaves the checks and the early return
    of the loop as they are without it. *)
Lemma guardrail_loop_raise (pre post : list string) (g : string)
    (guardrail_func : Guardrail) (e : string) (acc : list Check.t) :
  G !! g = Some guardrail_func ->
  guardrail_func context message = Raised e ->
  let with_g := Api.guardrail_loop G context message (pre ++ g :: post) acc in
  let without := Api.guardrail_loop G context message (pre ++ post) acc in
  Api.guardrail_results with_g = Api.guardrail_results without /\
  Api.rejected with_g = Api.rejected without.
Proof.
  intros Hg He. revert acc. induction pre as [|n pre IH]; intros acc.
  - cbn [app Api.guardrail_loop]. by rewrite Hg, He.
  - rewrite <- !app_comm_cons. cbn [Api.guardrail_loop].
    destruct (G !! n) as [f|]; [|apply IH].
    destruct (f context message) as [result|e']; [|apply IH].
    destruct (negb (Api.passed_of result)); [done | apply IH].
Qed.

End Raising.

(** C5: a guardrail whose evaluation raises does not block the step.  The
    result of the step is the result of the same agent without that entry in
    its guardrail list; when the loop reaches the entry, the call is
    followed by an error log and then by exactly what the step without the
    entry does after the earlier entries, that is the remaining guardrails
    and the agent logic; and the step is not rejected when no other entry
    is not passed. *)
Theorem C5_guardrail_error_fail_open `{Runtime} (G : gmap string Guardrail)
    (agent : Agent) (context : AirlineAgentContext) (message : string)
    (pre post : list string) (g : string) (guardrail_func : Guardrail) (e : string) :
  input_guardrails agent = pre ++ g :: post ->
  G !! g = Some guardrail_func ->
  guardrail_func context message = Raised e ->
  let step := Api.run_single_agent_turn G agent context message in
  let without :=
    Api.run_single_agent_turn G (with_input_guardrails agent (pre ++ post))
      context message in
  step.1 = without.1 /\
  (Forall (fun n => not_passed G context message n = false) pre ->
   exists rest,
     without.2 = flat_map (evaluation_effects G context message) pre ++ rest /\
     step.2 = flat_map (evaluation_effects G context message) pre
              ++ [CallGuardrail g message;
                  LogError ("Error running guardrail " +:+ g +:+ ": " +:+ e)]
              ++ rest) /\
  (Forall (fun n => not_passed G context message n = false) (pre ++ post) ->
   Api.rejected (Api.guardrail_loop G context message (input_guardrails agent) [])
   = false /\
   step.2 = flat_map (evaluation_effects G context message) (input_guardrails agent)
            ++ logic_effects agent context message).
Proof.
  intros Hsplit Hg He step without.
  destruct (guardrail_loop_raise G context message pre post g guardrail_func e [] Hg He)
    as [Hres Hrej].
  assert (not_passed G context message g = false) as Hopen
    by (unfold not_passed; by rewrite Hg, He).
  split_and!.
  - apply turn_result_congr; try done; cbn [input_guardrails with_input_guardrails];
      by rewrite Hsplit.
  - intros Hpre. subst step without. rewrite !turn_effects.
    cbn [input_guardrails with_input_guardrails]. rewrite Hsplit, Hrej.
    rewrite !guardrail_loop_open by done.
    rewrite (guardrail_loop_step G context message g post _ Hopen).
    assert (evaluation_effects G context message g
            = [CallGuardrail g message;
               LogError ("Error running guardrail " +:+ g +:+ ": " +:+ e)]) as ->
      by (unfold evaluation_effects; by rewrite Hg, He).
    assert (evaluation_checks G context message g = []) as ->
      by (unfold evaluation_checks; by rewrite Hg, He).
    change (logic_effects (with_input_guardrails agent (pre ++ post)) context message)
      with (logic_effects agent context message).
    rewrite app_nil_r. cbn [Api.after_effects Api.guardrail_effects Api.rejected].
    eexists. split; [by rewrite <- app_assoc|].
    by rewrite <- !app_assoc.
  - intros Hall.
    assert (Forall (fun n => not_passed G context message n = false)
              (input_guardrails agent)) as Hall'.
    { rewrite Hsplit. apply Forall_app in Hall as [Hpre Hpost].
      apply Forall_app. split; [done | by constructor]. }
    subst step. rewrite turn_effects.
    rewrite (guardrail_loop_all_open G context message _ [] Hall'). done.
Qed.

(** ** Handoff *)

Section Handoff.
Context `{Runtime}.
Variable G : gmap string Guardrail.

(** A specialist never hands off. *)
Lemma specialist_no_handoff (agent : Agent) (context : AirlineAgentContext)
    (message : string) :
  name agent <> "Triage Agent" ->
  Api.target_agent_for (name agent) (lower message) = None /\
  Turn.handoff (Api.run_single_agent_turn G agent context message).1 = None.
Proof.
  intros Hname.
  assert (Api.target_agent_for (name agent) (lower message) = None) as Hnone.
  { destruct (Api.target_agent_for _ _) as [t|] eqn:Ht; [|done].
    by apply target_agent_for_cases in Ht as [? _]. }
  split; [done|].
  destruct (Turn.handoff _) as [t|] eqn:Ht; [|done].
  apply turn_handoff in Ht. congruence.
Qed.




End Handoff.



(** ** Tool dispatch of the Networking Agent *)

Section Networking.
Context `{Runtime}.



(** Each line with a colon binds the normalised text before the first colon
    to the stripped text after it; a later line overrides an earlier one. *)
Lemma parse_business_data_snoc (lines : list string) (line : string)
    (business_data : gmap string string) :
  Api.parse_business_data (lines ++ [line]) business_data
  = match Py.split_once ":"%char line with
    | Some (key, value) =>
        <[Py.replace " "%char "_"%char (lower (strip key)) := strip value]>
          (Api.parse_business_data lines business_data)
    | None => Api.parse_business_data lines business_data
    end.
Proof.
  revert business_data. induction lines as [|l lines IH]; intros business_data.
  - cbn [app Api.parse_business_data].
    destruct (Py.str_in ":" line) eqn:Hguard.
    + by destruct (Py.split_once ":"%char line) as [[key value]|].
    + destruct (Py.split_once ":"%char line) as [[key value]|] eqn:Hsplit; [|done].
      assert (is_Some (Py.split_once ":"%char line)) as Hsome by (by rewrite Hsplit).
      apply split_once_guard in Hsome. congruence.
  - rewrite <- app_comm_cons. cbn [Api.parse_business_data].
    destruct (Py.str_in ":" l); [|apply IH].
    destruct (Py.split_once ":"%char l) as [[key value]|]; apply IH.
Qed.

End Networking.


(** ** Tool errors *)

(** The Schedule Agent branch records the error of a call that raises: the
    step answers the error text and emits a tool_call event that carries
    it. *)
Lemma schedule_tool_error_recorded `{Runtime} (G : gmap string Guardrail)
    (context : AirlineAgentContext) (message : string) (tool : Tool) (e : string) :
  tool_name tool = "get_conference_schedule_tool" ->
  tool_call tool context (QueryArgs message) = Raised e ->
  Api.run_single_agent_turn G (with_tools ConferenceAgents.schedule_agent [tool])
    context message
  = ({| Turn.messages := [AgentMessage ("Error: " +:+ e) "Schedule Agent"];
        Turn.events :=
          [{| Event.type := "tool_call";
              Event.agent := "Schedule Agent";
              Event.content := "Executed get_conference_schedule_tool";
              Event.metadata :=
                Event.ToolCallMetadata "get_conference_schedule_tool"
                  ("Error: " +:+ e) |}];
        Turn.guardrails := [];
        Turn.handoff := None |},
     [CallTool "get_conference_schedule_tool" (QueryArgs message);
      LogError ("Error executing tool get_conference_schedule_tool: " +:+ e)]).
Proof.
  intros Hname Hcall. rewrite turn_open; [|done|by eexists].
  unfold Api.execute_tools.
  cbn [name tools with_tools ConferenceAgents.schedule_agent Api.nonempty
       Api.schedule_tool_loop].
  rewrite Hname, Hcall. reflexivity.
Qed.

(** The same failure in the Schedule Agent branch is answered by the error
    text. *)
Lemma schedule_tool_error_example :
  @Api.run_single_agent_turn ascii_runtime (@Main.all_guardrails ascii_runtime)
    (with_tools (@ConferenceAgents.schedule_agent ascii_runtime) [failing_schedule_tool])
    AirlineAgentContext_new "sessions today"
  = ({| Turn.messages := [AgentMessage "Error: directory unavailable" "Schedule Agent"];
        Turn.events :=
          [{| Event.type := "tool_call";
              Event.agent := "Schedule Agent";
              Event.content := "Executed get_conference_schedule_tool";
              Event.metadata :=
                Event.ToolCallMetadata "get_conference_schedule_tool"
                  "Error: directory unavailable" |}];
        Turn.guardrails := [];
        Turn.handoff := None |},
     [CallTool "get_conference_schedule_tool" (QueryArgs "sessions today");
      LogError "Error executing tool get_conference_schedule_tool: directory unavailable"]).
Proof. by apply (schedule_tool_error_recorded (H:=ascii_runtime)). Qed.



(** ** The store across requests *)

Section Store.
Context `{Runtime}.
Variable G : gmap string Guardrail.

(** [uuid.uuid4()] does not return the same identifier twice. *)
Hypothesis uuid4_unique : forall i j, uuid4 i = uuid4 j -> i = j.

(** The next identifier is not a key of the store. *)
Lemma next_uuid_fresh (w : World) :
  keys_drawn w -> conversations w !! uuid4 (uuid_count w) = None.
Proof.
  intros Hkeys. apply eq_None_not_Some. intros Hsome.
  destruct (Hkeys _ Hsome) as (i & Hlt & Heq).
  apply uuid4_unique in Heq. lia.
Qed.

Lemma get_or_create_keys_drawn (conversation_id : option string) (w : World) :
  keys_drawn w ->
  keys_drawn (Api.get_or_create_conversation conversation_id w).2.
Proof.
  intros Hkeys.
  destruct (get_or_create_cases conversation_id w)
    as [(cid & _ & _ & _ & ->)|[_ ->]]; [done|].
  intros cid. cbn [snd conversations uuid_count].
  destruct (decide (cid = uuid4 (uuid_count w))) as [->|Hne].
  - intros _. exists (uuid_count w). split; [lia | done].
  - rewrite lookup_insert_ne by done. intros Hsome.
    destruct (Hkeys _ Hsome) as (i & Hlt & Heq). exists i. split; [lia | done].
Qed.


(** A conversation of the store is found unchanged after
    [get_or_create_conversation]. *)
Lemma get_or_create_keeps (conversation_id : option string) (w : World)
    (cid : string) (c : Conversation.t) :
  keys_drawn w ->
  conversations w !! cid = Some c ->
  conversations (Api.get_or_create_conversation conversation_id w).2 !! cid = Some c.
Proof.
  intros Hkeys Hc.
  destruct (get_or_create_cases conversation_id w)
    as [(cid' & _ & _ & _ & ->)|[_ ->]]; [done|].
  cbn [snd conversations]. rewrite lookup_insert_ne; [done|].
  intros <-. rewrite next_uuid_fresh in Hc; done.
Qed.



End Store.

Lemma initial_world_keys_drawn `{Runtime} : keys_drawn initial_world.
Proof. intros cid [c Hc]. simpl in Hc. by rewrite lookup_empty in Hc. Qed.


(** C8: in a store whose keys were drawn from [uuid4], a known identifier
    is returned with the store unchanged, so the conversation keeps its
    logs; with no identifier or an unknown one a new identifier, not yet a
    key, is bound to a conversation with an empty context, the entry agent
    and empty logs, and the other conversations are untouched; two
    successive calls with no identifier return distinct identifiers. *)
Theorem C8_get_or_create `{Runtime} (w : World) :
  (forall i j, uuid4 i = uuid4 j -> i = j) ->
  (forall i, uuid4 i <> "") ->
  keys_drawn w ->
  (forall cid c,
     conversations w !! cid = Some c ->
     Api.get_or_create_conversation (Some cid) w = (cid, w)) /\
  (forall conversation_id,
     (forall cid, conversation_id = Some cid -> conversations w !! cid = None) ->
     let created := Api.get_or_create_conversation conversation_id w in
     conversations w !! created.1 = None /\
     conversations created.2 !! created.1 = Some Api.new_conversation /\
     (forall cid, cid <> created.1 ->
        conversations created.2 !! cid = conversations w !! cid)) /\
  (Conversation.context Api.new_conversation = AirlineAgentContext_new /\
   Conversation.current_agent Api.new_conversation = name Main.starting_agent /\
   Conversation.messages Api.new_conversation = [] /\
   Conversation.events Api.new_conversation = [] /\
   Conversation.guardrails Api.new_conversation = []) /\
  (let first := Api.get_or_create_conversation None w in
   let second := Api.get_or_create_conversation None first.2 in
   first.1 <> second.1).
Proof.
  intros Hunique Hnonempty Hkeys. split_and!; try done.
  - intros cid c Hc.
    destruct (get_or_create_cases (Some cid) w)
      as [(cid' & [= <-] & _ & _ & Hgoc)|[Hnew _]]; [done|].
    destruct (Hnew cid eq_refl) as [->|Hnone]; [|congruence].
    destruct (Hkeys "") as (i & _ & Hi); [by eexists|].
    by destruct (Hnonempty i).
  - intros conversation_id Hunknown created. subst created.
    destruct (get_or_create_cases conversation_id w)
      as [(cid & -> & _ & [c Hc] & _)|[_ ->]].
    { rewrite (Hunknown cid eq_refl) in Hc. done. }
    cbn [fst snd conversations]. split_and!.
    + by apply next_uuid_fresh.
    + by rewrite lookup_insert_eq.
    + intros cid Hne. by rewrite lookup_insert_ne.
  - intros first second Heq. subst first second.
    destruct (get_or_create_cases None w) as [(cid & [=] & _)|[_ Hfirst]].
    rewrite Hfirst in Heq. cbn [fst snd] in Heq.
    destruct (get_or_create_cases None
                {| conversations :=
                     <[uuid4 (uuid_count w) := Api.new_conversation]> (conversations w);
                   uuid_count := S (uuid_count w) |})
      as [(cid & [=] & _)|[_ Hsecond]].
    rewrite Hsecond in Heq. cbn [fst snd uuid_count] in Heq.
    apply Hunique in Heq. lia.
Qed.


(** ** The ASCII runtime satisfies the assumptions on [uuid4] *)

Lemma ascii_uuid4_length (n : nat) : String.length (ascii_uuid4 n) = S n.
Proof. induction n as [|n IH]; simpl; congruence. Qed.

Lemma ascii_uuid4_unique (i j : nat) : ascii_uuid4 i = ascii_uuid4 j -> i = j.
Proof.
  intros Heq. apply (f_equal String.length) in Heq.
  rewrite !ascii_uuid4_length in Heq. lia.
Qed.

Lemma ascii_uuid4_nonempty (i : nat) : ascii_uuid4 i <> "".
Proof. by destruct i. Qed.

(** * Further properties *)

(** ** The two guardrails of main.py *)







(** ** One agent step, continued *)

Section StepShape.
Context `{Runtime}.
Variable G : gmap string Guardrail.
Variables (context : AirlineAgentContext) (message : string).

(** An agent that is neither specialist executes no tool. *)
Lemma execute_tools_other (agent : Agent) :
  name agent <> "Schedule Agent" ->
  name agent <> "Networking Agent" ->
  Api.execute_tools agent context message (lower message) = ([], []).
Proof.
  intros Hs Hn. unfold Api.execute_tools.
  apply String.eqb_neq in Hs, Hn. by rewrite Hs, Hn.
Qed.

(** A tool loop over tools with other names calls nothing. *)
Lemma schedule_tool_loop_missing (agent_tools : list Tool) :
  Forall (fun t => tool_name t <> "get_conference_schedule_tool") agent_tools ->
  Api.schedule_tool_loop context message agent_tools = ([], []).
Proof.
  induction 1 as [|t ts Ht _ IH]; [done|]. cbn [Api.schedule_tool_loop].
  apply String.eqb_neq in Ht. by rewrite Ht.
Qed.

Lemma networking_tool_loop_missing (wanted : string) (args : ToolArgs)
    (agent_tools : list Tool) :
  Forall (fun t => tool_name t <> wanted) agent_tools ->
  Api.networking_tool_loop context wanted args agent_tools = ([], []).
Proof.
  induction 1 as [|t ts Ht _ IH]; [done|]. cbn [Api.networking_tool_loop].
  apply String.eqb_neq in Ht. by rewrite Ht.
Qed.

(** The reply and the events, whatever the target and the tool results. *)
Lemma generate_response_shape (agent_name : string) (target : option string)
    (tool_results : list ToolResult.t) :
  let response := Api.generate_response agent_name target tool_results in
  List.length response.2 <= 1 /\
  (forall t, target = Some t ->
     response
     = ("I'll connect you with our " +:+ t +:+
          " who can help you with that. One moment please...",
        [{| Event.type := "handoff";
            Event.agent := agent_name;
            Event.content := "Handing off to " +:+ t;
            Event.metadata := Event.HandoffMetadata agent_name t |}])) /\
  (target = None ->
   Forall (fun ev => Event.type ev = "tool_call" /\ Event.agent ev = agent_name)
     response.2).
Proof.
  unfold Api.generate_response. destruct target as [t|].
  - split_and!; [simpl; lia | by intros ? [= <-] | done].
  - destruct tool_results as [|first rest]; simpl;
      (split_and!; [lia | done | intros _; by repeat constructor]).
Qed.

End StepShape.

(** X4: when the call of the agent's instructions raises after the
    guardrails let the message through, the step answers the apology text,
    with no event, no handoff and no tool call; the checks of the
    guardrails are kept and the error is logged. *)
Theorem X4_instructions_error_apology `{Runtime} (G : gmap string Guardrail)
    (agent : Agent) (context : AirlineAgentContext) (message e : string) :
  instructions agent context = Raised e ->
  Forall (fun n => not_passed G context message n = false) (input_guardrails agent) ->
  Api.run_single_agent_turn G agent context message
  = ({| Turn.messages := [AgentMessage Api.apology_text (name agent)];
        Turn.events := [];
        Turn.guardrails :=
          flat_map (evaluation_checks G context message) (input_guardrails agent);
        Turn.handoff := None |},
     flat_map (evaluation_effects G context message) (input_guardrails agent)
       ++ [LogError ("Error running agent " +:+ name agent +:+ ": " +:+ e)]).
Proof.
  intros Hraise Hopen. unfold Api.run_single_agent_turn.
  rewrite (guardrail_loop_all_open G context message _ [] Hopen).
  cbn [Api.rejected Api.guardrail_results Api.guardrail_effects]. by rewrite Hraise.
Qed.

(** X5: every step returns exactly one message, signed by the agent, and at
    most one event.  A step that hands off returns the connecting text and
    one handoff event naming the agent and the target; a step that does not
    hand off returns only tool_call events of the agent. *)
Theorem X5_step_shape `{Runtime} (G : gmap string Guardrail) (agent : Agent)
    (context : AirlineAgentContext) (message : string) :
  let step := Api.run_single_agent_turn G agent context message in
  (exists content, Turn.messages step.1 = [AgentMessage content (name agent)]) /\
  List.length (Turn.events step.1) <= 1 /\
  (forall target,
     Turn.handoff step.1 = Some target ->
     Turn.messages step.1
     = [AgentMessage
          ("I'll connect you with our " +:+ target +:+
             " who can help you with that. One moment please...")
          (name agent)] /\
     Turn.events step.1
     = [{| Event.type := "handoff";
           Event.agent := name agent;
           Event.content := "Handing off to " +:+ target;
           Event.metadata := Event.HandoffMetadata (name agent) target |}]) /\
  (Turn.handoff step.1 = None ->
   Forall (fun ev => Event.type ev = "tool_call" /\ Event.agent ev = name agent)
     (Turn.events step.1)).
Proof.
  intros step. subst step. unfold Api.run_single_agent_turn.
  destruct (Api.rejected _).
  { cbn. split_and!; [by eexists | lia | done | done]. }
  destruct (instructions agent context).
  2: { cbn. split_and!; [by eexists | lia | done | done]. }
  destruct (Api.execute_tools _ _ _ _) as [tool_results tool_effects].
  destruct (generate_response_shape (name agent)
              (Api.target_agent_for (name agent) (lower message)) tool_results)
    as (Hlen & Hsome & Hnone).
  destruct (Api.generate_response _ _ _) as [response_content events] eqn:Hresp.
  cbn in *. split_and!; [by eexists | done | | done].
  intros target Ht. specialize (Hsome target Ht). by injection Hsome as -> ->.
Qed.

(** X6: a step that calls a tool is the step of an agent named Schedule
    Agent or Networking Agent, and it does not hand off; so no step both
    hands off and calls a tool. *)
Theorem X6_tool_call_excludes_handoff `{Runtime} (G : gmap string Guardrail)
    (agent : Agent) (context : AirlineAgentContext) (message : string) :
  let step := Api.run_single_agent_turn G agent context message in
  forall tool args,
    CallTool tool args ∈ step.2 ->
    Turn.handoff step.1 = None /\
    (name agent = "Schedule Agent" \/ name agent = "Networking Agent").
Proof.
  intros step tool args Hin. subst step. rewrite turn_effects in Hin.
  apply elem_of_app in Hin as [Hin|Hin]; [by apply guardrail_loop_no_tool in Hin|].
  destruct (Api.rejected _); [by apply elem_of_nil in Hin|].
  unfold logic_effects in Hin.
  destruct (instructions agent context);
    [|apply list_elem_of_singleton in Hin; discriminate].
  destruct (decide (name agent = "Schedule Agent")) as [Hs|Hs].
  { split; [|by left]. apply specialist_no_handoff. by rewrite Hs. }
  destruct (decide (name agent = "Networking Agent")) as [Hn|Hn].
  { split; [|by right]. apply specialist_no_handoff. by rewrite Hn. }
  rewrite execute_tools_other in Hin by done. by apply elem_of_nil in Hin.
Qed.

(** ** The guardrail log *)

Section GuardrailLog.
Context `{Runtime}.
Variable G : gmap string Guardrail.
Variables (context : AirlineAgentContext) (message : string).

(** Names that are not registered do not change the loop. *)
Lemma guardrail_loop_registered (names : list string) (acc : list Check.t) :
  Api.guardrail_loop G context message names acc
  = Api.guardrail_loop G context message
      (filter (fun n => is_Some (G !! n)) names) acc.
Proof.
  revert acc. induction names as [|n names IH]; intros acc; [done|].
  rewrite filter_cons. destruct (decide (is_Some (G !! n))) as [[f Hf]|Hnone].
  - cbn [Api.guardrail_loop]. rewrite Hf.
    destruct (f context message) as [result|e]; [|by rewrite IH].
    destruct (negb (Api.passed_of result)); [done | by rewrite IH].
  - cbn [Api.guardrail_loop].
    destruct (G !! n) as [f|] eqn:Hf; [|apply IH].
    destruct Hnone. by exists f.
Qed.

(** What the loop adds to the checks it starts with. *)
Lemma guardrail_loop_log (names : list string) (acc : list Check.t) :
  let phase := Api.guardrail_loop G context message names acc in
  exists new,
    Api.guardrail_results phase = acc ++ new /\
    Forall (fun c => Check.input c = message /\ Check.name c ∈ names /\
                     is_Some (G !! Check.name c)) new /\
    (Api.rejected phase = false -> Forall (fun c => Check.passed c = true) new) /\
    (Api.rejected phase = true ->
     exists init last,
       new = init ++ [last] /\
       Forall (fun c => Check.passed c = true) init /\
       Check.passed last = false).
Proof.
  revert acc. induction names as [|n names IH]; intros acc; cbn [Api.guardrail_loop].
  - exists []. rewrite app_nil_r. by split_and!.
  - assert (forall acc',
      let phase := Api.guardrail_loop G context message names acc' in
      exists new,
        Api.guardrail_results phase = acc' ++ new /\
        Forall (fun c => Check.input c = message /\ Check.name c ∈ n :: names /\
                         is_Some (G !! Check.name c)) new /\
        (Api.rejected phase = false -> Forall (fun c => Check.passed c = true) new) /\
        (Api.rejected phase = true ->
         exists init last,
           new = init ++ [last] /\
           Forall (fun c => Check.passed c = true) init /\
           Check.passed last = false)) as IH'.
    { intros acc'. destruct (IH acc') as (new & Hres & Hnew & Hopen & Hrej).
      exists new. split_and!; try done.
      eapply Forall_impl; [exact Hnew|]. intros c (? & ? & ?).
      split_and!; try done. by apply elem_of_cons; right. }
    destruct (G !! n) as [f|] eqn:Hf; [|apply IH'].
    destruct (f context message) as [result|e]; [|apply IH'].
    assert (Check.input (Api.guardrail_check n message result) = message /\
            Check.name (Api.guardrail_check n message result) ∈ n :: names /\
            is_Some (G !! Check.name (Api.guardrail_check n message result))) as Hc.
    { split_and!; [done | by apply elem_of_cons; left | by exists f]. }
    destruct (Api.passed_of result) eqn:Hpass; cbn [negb].
    + destruct (IH' (acc ++ [Api.guardrail_check n message result]))
        as (new & Hres & Hnew & Hopen & Hrej).
      exists (Api.guardrail_check n message result :: new).
      cbn [Api.after_effects Api.guardrail_results Api.rejected] in *.
      split_and!.
      * by rewrite Hres, <- app_assoc.
      * by constructor.
      * intros Hno. constructor; [done | by apply Hopen].
      * intros Hyes. destruct (Hrej Hyes) as (init & last & -> & Hinit & Hlast).
        exists (Api.guardrail_check n message result :: init), last.
        split_and!; [done | by constructor | done].
    + exists [Api.guardrail_check n message result]. cbn. split_and!; try done.
      * by repeat constructor.
      * intros _. exists [], (Api.guardrail_check n message result). by split_and!.
Qed.

End GuardrailLog.

(** X7: guardrail names that are not in the table are passed over: the
    step of an agent is the step of the same agent with only the registered
    names in its guardrail list. *)
Theorem X7_unregistered_guardrails_skipped `{Runtime} (G : gmap string Guardrail)
    (agent : Agent) (context : AirlineAgentContext) (message : string) :
  Api.run_single_agent_turn G agent context message
  = Api.run_single_agent_turn G
      (with_input_guardrails agent
         (filter (fun n => is_Some (G !! n)) (input_guardrails agent)))
      context message.
Proof.
  unfold Api.run_single_agent_turn, Api.execute_tools.
  cbn [input_guardrails with_input_guardrails name instructions tools].
  by rewrite <- guardrail_loop_registered.
Qed.

(** X8: in the guardrail checks returned by a step, every check is about
    the message and a registered guardrail of the agent's list; a check
    that is not passed is the last one, and it comes with the rejection
    text, no event and no handoff; and the checks hold a failed one exactly
    when the guardrail loop took the early return. *)
Theorem X8_failed_check_is_last `{Runtime} (G : gmap string Guardrail)
    (agent : Agent) (context : AirlineAgentContext) (message : string) :
  let step := Api.run_single_agent_turn G agent context message in
  Forall (fun c => Check.input c = message /\
                   Check.name c ∈ input_guardrails agent /\
                   is_Some (G !! Check.name c))
    (Turn.guardrails step.1) /\
  (forall init c rest,
     Turn.guardrails step.1 = init ++ c :: rest ->
     Check.passed c = false ->
     rest = [] /\
     Turn.messages step.1 = [AgentMessage Api.rejection_text (name agent)] /\
     Turn.events step.1 = [] /\
     Turn.handoff step.1 = None) /\
  (Exists (fun c => Check.passed c = false) (Turn.guardrails step.1) <->
   Api.rejected (Api.guardrail_loop G context message (input_guardrails agent) [])
   = true).
Proof.
  intros step.
  destruct (guardrail_loop_log G context message (input_guardrails agent) [])
    as (new & Hres & Hnew & Hopen & Hrej).
  assert (Turn.guardrails step.1 = new) as Hlog.
  { subst step. unfold Api.run_single_agent_turn.
    destruct (Api.rejected _); [done|].
    destruct (instructions agent context); [|done].
    destruct (Api.execute_tools _ _ _ _).
    by destruct (Api.generate_response _ _ _). }
  rewrite Hlog. split; [done|].
  destruct (Api.rejected (Api.guardrail_loop G context message
                            (input_guardrails agent) [])) eqn:Hphase.
  - destruct (Hrej eq_refl) as (init' & last & -> & Hinit & Hlast).
    split.
    + intros init c rest Heq Hfail.
      assert (rest = []) as ->.
      { destruct (decide (List.length init < List.length init')) as [Hlt|Hge].
        - assert ((init' ++ [last]) !! List.length init = Some c) as Hc
            by (rewrite Heq; by apply list_lookup_middle).
          rewrite lookup_app_l in Hc by done.
          rewrite Forall_lookup in Hinit. apply Hinit in Hc. congruence.
        - apply (f_equal List.length) in Heq.
          rewrite !length_app in Heq. cbn [List.length] in Heq.
          destruct rest; [done | cbn [List.length] in Heq; lia]. }
      split; [done|]. subst step. by rewrite turn_rejected.
    + split; [done|]. intros _. apply Exists_app. right. by constructor.
  - specialize (Hopen eq_refl). split.
    + intros init c rest -> Hfail. apply Forall_app in Hopen as [_ Hopen].
      apply Forall_cons in Hopen as [Hc _]. congruence.
    + split; [|done]. intros Hex. apply Exists_exists in Hex as (c & Hin & Hfail).
      rewrite Forall_forall in Hopen. apply Hopen in Hin. congruence.
Qed.

(** ** Default replies *)



(** X10: an agent other than the Triage Agent that holds none of the four
    tools the dispatch looks for answers the default text of a specialist,
    with no event, no handoff and no tool call, whenever its guardrails let
    the message through and its instructions return. *)
Theorem X10_specialist_without_tool `{Runtime} (G : gmap string Guardrail)
    (agent : Agent) (context : AirlineAgentContext) (message : string) :
  name agent <> "Triage Agent" ->
  Forall (fun t => tool_name t ∉ ["get_conference_schedule_tool";
                                  "display_business_form_tool";
                                  "add_business_tool";
                                  "search_attendees_tool"]) (tools agent) ->
  Api.rejected (Api.guardrail_loop G context message (input_guardrails agent) [])
  = false ->
  (exists prompt, instructions agent context = Returned prompt) ->
  let step := Api.run_single_agent_turn G agent context message in
  Turn.messages step.1 = [AgentMessage Api.specialist_default_text (name agent)] /\
  Turn.events step.1 = [] /\
  Turn.handoff step.1 = None /\
  forall tool args, CallTool tool args ∉ step.2.
Proof.
  intros Hname Htools Hopen Hprompt step.
  assert (forall wanted,
            wanted ∈ ["get_conference_schedule_tool"; "display_business_form_tool";
                      "add_business_tool"; "search_attendees_tool"] ->
            Forall (fun t => tool_name t <> wanted) (tools agent)) as Hmissing.
  { intros wanted Hin. eapply Forall_impl; [exact Htools|].
    intros t Ht Heq. apply Ht. by rewrite Heq. }
  assert (Api.execute_tools agent context message (lower message) = ([], []))
    as Hexec.
  { unfold Api.execute_tools.
    destruct (String.eqb (name agent) "Schedule Agent" && Api.nonempty (tools agent)).
    { apply schedule_tool_loop_missing, Hmissing. apply list_elem_of_here. }
    destruct (String.eqb (name agent) "Networking Agent" && Api.nonempty (tools agent));
      [|done].
    repeat case_match; apply networking_tool_loop_missing, Hmissing;
      repeat first [apply list_elem_of_here | apply list_elem_of_further]. }
  destruct (specialist_no_handoff G agent context message Hname) as [Htarget _].
  subst step. rewrite (turn_open G agent context message Hopen Hprompt).
  rewrite Hexec, Htarget. cbn [fst snd Api.generate_response].
  apply String.eqb_neq in Hname. rewrite Hname, app_nil_r.
  split_and!; try done. intros tool args. apply guardrail_loop_no_tool.
Qed.

(** ** The business form *)

Section BusinessForm.
Context `{Runtime}.

Lemma parse_business_data_app (lines1 lines2 : list string)
    (business_data : gmap string string) :
  Api.parse_business_data (lines1 ++ lines2) business_data
  = Api.parse_business_data lines2 (Api.parse_business_data lines1 business_data).
Proof.
  revert business_data. induction lines1 as [|l lines1 IH]; intros business_data; [done|].
  rewrite <- app_comm_cons. cbn [Api.parse_business_data].
  destruct (Py.str_in ":" l); [|apply IH].
  destruct (Py.split_once ":"%char l) as [[key value]|]; apply IH.
Qed.

(** Lines that do not bind a key leave its entry as it was. *)
Lemma parse_business_data_absent (lines : list string)
    (business_data : gmap string string) (k : string) :
  (forall line key value,
     line ∈ lines ->
     Py.split_once ":"%char line = Some (key, value) ->
     Py.replace " "%char "_"%char (lower (strip key)) <> k) ->
  Api.parse_business_data lines business_data !! k = business_data !! k.
Proof.
  revert business_data. induction lines as [|l lines IH]; intros business_data Habsent;
    [done|].
  assert (forall line key value,
            line ∈ lines ->
            Py.split_once ":"%char line = Some (key, value) ->
            Py.replace " "%char "_"%char (lower (strip key)) <> k) as Hrest.
  { intros line key value Hin. apply Habsent. by apply list_elem_of_further. }
  cbn [Api.parse_business_data].
  destruct (Py.str_in ":" l); [|by apply IH].
  destruct (Py.split_once ":"%char l) as [[key value]|] eqn:Hsplit; [|by apply IH].
  rewrite IH by done. apply lookup_insert_ne.
  by apply (Habsent l key value); [apply list_elem_of_here|].
Qed.

End BusinessForm.

(** X11: what the parse of the business form binds to a key.  A key that
    no line names keeps the entry it had, so that, parsing from the empty
    dictionary, the corresponding argument of the tool is the empty string
    (no value for the website); a key named by a line and by no later line
    is bound to the stripped text after the first colon of that line. *)
Theorem X11_parse_business_data_lookup `{Runtime} (k : string) :
  let names line :=
    exists key value,
      Py.split_once ":"%char line = Some (key, value) /\
      Py.replace " "%char "_"%char (lower (strip key)) = k in
  (forall lines business_data,
     Forall (fun line => ~ names line) lines ->
     Api.parse_business_data lines business_data !! k = business_data !! k) /\
  (forall lines,
     Forall (fun line => ~ names line) lines ->
     default "" (Api.parse_business_data lines ∅ !! k) = "") /\
  (forall before line after key value business_data,
     Py.split_once ":"%char line = Some (key, value) ->
     Py.replace " "%char "_"%char (lower (strip key)) = k ->
     Forall (fun later => ~ names later) after ->
     Api.parse_business_data (before ++ line :: after) business_data !! k
     = Some (strip value)).
Proof.
  intros names.
  assert (forall lines business_data,
            Forall (fun line => ~ names line) lines ->
            Api.parse_business_data lines business_data !! k = business_data !! k)
    as Habsent.
  { intros lines business_data Hnone. apply parse_business_data_absent.
    intros line key value Hin Hsplit Hkey.
    rewrite Forall_forall in Hnone. apply (Hnone line Hin). by exists key, value. }
  split_and!; [done | |].
  - intros lines Hnone. by rewrite Habsent, lookup_empty.
  - intros before line after key value business_data Hsplit Hkey Hafter.
    change (before ++ line :: after) with (before ++ [line] ++ after).
    rewrite app_assoc, parse_business_data_app, Habsent by done.
    rewrite parse_business_data_snoc, Hsplit, Hkey. apply lookup_insert_eq.
Qed.

(** ** Splitting *)

Lemma split_nonempty (sep : ascii) (s : string) : Py.split sep s <> [].
Proof.
  destruct s as [|c s]; cbn [Py.split]; [done|].
  destruct (Ascii.eqb c sep); [done|]. by destruct (Py.split sep s).
Qed.

(** X12: [split] cuts a text at every separator and nowhere else: joining
    the pieces with the separator gives the text back, and no piece holds
    the separator.  [split_once] cuts at the first separator: the text is
    the part before, the separator and the part after, and the part before
    holds no separator; it finds nothing exactly when the text holds no
    separator. *)
Theorem X12_split_round_trip (sep : ascii) (s : string) :
  String.concat (String sep "") (Py.split sep s) = s /\
  Forall (fun piece => Py.str_in (String sep "") piece = false) (Py.split sep s) /\
  (forall before after,
     Py.split_once sep s = Some (before, after) ->
     s = before +:+ String sep after /\
     Py.str_in (String sep "") before = false) /\
  (Py.split_once sep s = None <-> Py.str_in (String sep "") s = false).
Proof.
  assert (forall c t, c <> sep ->
            Py.str_in (String sep "") (String c t) = Py.str_in (String sep "") t)
    as Hskip.
  { intros c t Hne. cbn [Py.str_in].
    replace (String.prefix (String sep "") (String c t)) with false; [done|].
    symmetry. apply not_true_iff_false. rewrite prefix_append.
    intros [post Hpost]. rewrite append_cons in Hpost. congruence. }
  assert (forall t, Py.str_in (String sep "") (String sep t) = true) as Hhit.
  { intros t. cbn [Py.str_in]. apply orb_true_iff. left.
    apply prefix_append. by exists t. }
  induction s as [|c s (IHjoin & IHpieces & IHonce & IHnone)].
  - split_and!; try done. by repeat constructor.
  - cbn [Py.split Py.split_once]. destruct (Ascii.eqb_spec c sep) as [->|Hne].
    + split_and!.
      * pose proof (split_nonempty sep s) as Hne.
        cbn [String.concat]. destruct (Py.split sep s) as [|piece pieces]; [done|].
        by rewrite <- IHjoin.
      * by constructor.
      * by intros before after [= <- <-].
      * rewrite Hhit. by split.
    + pose proof (split_nonempty sep s) as Hsome.
      destruct (Py.split sep s) as [|piece pieces]; [done|].
      apply Forall_cons in IHpieces as [Hpiece Hpieces].
      split_and!.
      * rewrite <- IHjoin. cbn [String.concat].
        destruct pieces; [done | by rewrite append_cons].
      * constructor; [by rewrite Hskip | done].
      * intros before after Honce.
        destruct (Py.split_once sep s) as [[k v]|]; [|done].
        injection Honce as <- <-.
        destruct (IHonce k v eq_refl) as [-> Hk].
        split; [by rewrite append_cons | by rewrite Hskip].
      * rewrite Hskip by done. rewrite <- IHnone.
        destruct (Py.split_once sep s) as [[k v]|]; by split.
Qed.

(** ** The endpoint, continued *)

(** A step returns one message, signed by the agent. *)
Lemma step_one_message `{Runtime} (G : gmap string Guardrail) (agent : Agent)
    (context : AirlineAgentContext) (message : string) :
  exists content,
    Turn.messages (Api.run_single_agent_turn G agent context message).1
    = [AgentMessage content (name agent)].
Proof.
  unfold Api.run_single_agent_turn.
  destruct (Api.rejected _); [by eexists|].
  destruct (instructions agent context); [|by eexists].
  destruct (Api.execute_tools _ _ _ _).
  destruct (Api.generate_response _ _ _). by eexists.
Qed.

Section ChatLogs.
Context `{Runtime}.
Variable G : gmap string Guardrail.

(** The combined result of a request holds the first step's lists, then
    those of the second step when there is one. *)
Lemma handle_handoff_messages (current_agent_name : string) (result : Turn.t)
    (context : AirlineAgentContext) (message : string) :
  let handled := Api.handle_handoff G current_agent_name result context message in
  exists second_messages second_events second_checks,
    Turn.messages handled.1.2 = Turn.messages result ++ second_messages /\
    Turn.events handled.1.2 = Turn.events result ++ second_events /\
    Turn.guardrails handled.1.2 = Turn.guardrails result ++ second_checks /\
    List.length second_messages <= 1 /\
    (handled.1.1 = current_agent_name \/
     Turn.handoff result = Some handled.1.1 /\
     is_Some (Api.find_agent handled.1.1)) /\
    Forall (fun m => exists text agent, m = AgentMessage text agent) second_messages.
Proof.
  unfold Api.handle_handoff.
  assert (exists second_messages second_events second_checks : _,
            Turn.messages result = Turn.messages result ++ second_messages /\
            Turn.events result = Turn.events result ++ second_events /\
            Turn.guardrails result = Turn.guardrails result ++ second_checks /\
            List.length second_messages <= 1 /\
            (current_agent_name = current_agent_name \/
             Turn.handoff result = Some current_agent_name /\
             is_Some (Api.find_agent current_agent_name)) /\
            Forall (fun m => exists text agent, m = AgentMessage text agent)
              second_messages) as Hsame.
  { exists [], [], []. rewrite !app_nil_r. cbn. split_and!; try done; [lia | by left]. }
  destruct (Turn.handoff result) as [target|] eqn:Ht; [|exact Hsame].
  destruct (Py.truthy target); [|exact Hsame].
  destruct (Api.find_agent target) as [target_agent|] eqn:Hfind; [|exact Hsame].
  destruct (Api.run_single_agent_turn G target_agent context message)
    as [second effects] eqn:Hsecond.
  cbn [fst snd Turn.messages Turn.events Turn.guardrails].
  exists (Turn.messages second), (Turn.events second), (Turn.guardrails second).
  split_and!; try done.
  - destruct (step_one_message G target_agent context message) as [content Hcontent].
    rewrite Hsecond in Hcontent. cbn in Hcontent. rewrite Hcontent. cbn. lia.
  - right. split; [done|]. rewrite Hfind. by eexists.
  - destruct (step_one_message G target_agent context message) as [content Hcontent].
    rewrite Hsecond in Hcontent. cbn in Hcontent. rewrite Hcontent.
    repeat constructor. by eexists _, _.
Qed.

(** A request appends one turn to the log of its conversation. *)
Lemma chat_appends_turn (request : ChatRequest.t) (w : World) :
  let created :=
    Api.get_or_create_conversation (ChatRequest.conversation_id request) w in
  exists c c2 replies,
    conversations created.2 !! created.1 = Some c /\
    (Api.chat G request w).1.1
    = {| conversations := <[created.1 := c2]> (conversations created.2);
         uuid_count := uuid_count created.2 |} /\
    Conversation.messages c2
    = Conversation.messages c ++ UserMessage (ChatRequest.message request) :: replies /\
    1 <= List.length replies <= 2 /\
    Forall (fun m => exists text agent, m = AgentMessage text agent) replies.
Proof.
  intros created.
  pose proof (get_or_create_lookup (ChatRequest.conversation_id request) w) as [c Hc].
  fold created in Hc.
  destruct created as [cid w1] eqn:Hcreated. cbn [fst snd] in *.
  exists c. rewrite (chat_eq G request w w1 cid c Hcreated Hc).
  destruct (handle_handoff_messages (Conversation.current_agent c)
              (Api.run_single_agent_turn G (agent_of c) (context_of request c)
                 (ChatRequest.message request)).1
              (context_of request c) (ChatRequest.message request))
    as (ms & _ & _ & Hms & _ & _ & Hlen & _ & Hagents).
  destruct (step_one_message G (agent_of c) (context_of request c)
              (ChatRequest.message request)) as [content Hcontent].
  eexists _, ([AgentMessage content (name (agent_of c))] ++ ms).
  split; [done|]. split; [reflexivity|].
  cbn [Conversation.messages]. rewrite Hms, Hcontent.
  split; [rewrite <- app_assoc; reflexivity|]. split; [cbn; lia|].
  constructor; [by eexists _, _ | done].
Qed.

End ChatLogs.


Section ChatAgents.
Context `{Runtime}.
Variable G : gmap string Guardrail.


(** The handling of a step that did not hand off. *)
Lemma handle_handoff_None (current_agent_name : string) (result : Turn.t)
    (context : AirlineAgentContext) (message : string) :
  Turn.handoff result = None ->
  Api.handle_handoff G current_agent_name result context message
  = (current_agent_name, result, []).
Proof. intros Hnone. unfold Api.handle_handoff. by rewrite Hnone. Qed.

(** A request leaves the keys of the store among the identifiers drawn. *)
Lemma chat_keys_drawn (request : ChatRequest.t) (w : World) :
  keys_drawn w -> keys_drawn (Api.chat G request w).1.1.
Proof.
  intros Hkeys.
  pose proof (get_or_create_keys_drawn (ChatRequest.conversation_id request) w Hkeys)
    as Hkeys1.
  pose proof (get_or_create_lookup (ChatRequest.conversation_id request) w) as [c1 Hc1].
  destruct (Api.get_or_create_conversation _ w) as [cid1 w1] eqn:Hgoc.
  cbn [fst snd] in *.
  rewrite (chat_eq G request w w1 cid1 c1 Hgoc Hc1). cbn [fst snd].
  intros cid. cbn [conversations uuid_count].
  destruct (decide (cid = cid1)) as [->|Hne].
  - intros _. apply Hkeys1. by eexists.
  - rewrite lookup_insert_ne by done. apply Hkeys1.
Qed.

(** One request leaves a conversation held by a specialist with that
    specialist. *)
Lemma chat_specialist_stays (request : ChatRequest.t) (w : World) (cid : string)
    (c : Conversation.t) :
  (forall i j, uuid4 i = uuid4 j -> i = j) ->
  keys_drawn w ->
  conversations w !! cid = Some c ->
  Conversation.current_agent c = "Schedule Agent" \/
  Conversation.current_agent c = "Networking Agent" ->
  exists c',
    conversations (Api.chat G request w).1.1 !! cid = Some c' /\
    Conversation.current_agent c' = Conversation.current_agent c.
Proof.
  intros Hunique Hkeys Hc Hcur.
  pose proof (get_or_create_keeps Hunique (ChatRequest.conversation_id request)
                w cid c Hkeys Hc) as Hkept.
  pose proof (get_or_create_lookup (ChatRequest.conversation_id request) w) as [c1 Hc1].
  destruct (Api.get_or_create_conversation _ w) as [cid1 w1] eqn:Hgoc.
  cbn [fst snd] in *.
  rewrite (chat_eq G request w w1 cid1 c1 Hgoc Hc1). cbn [fst snd conversations].
  destruct (decide (cid = cid1)) as [->|Hne].
  - rewrite lookup_insert_eq. eexists. split; [reflexivity|].
    assert (c1 = c) as -> by congruence. cbn [Conversation.current_agent].
    assert (name (agent_of c) <> "Triage Agent") as Hname.
    { unfold agent_of. by destruct Hcur as [-> | ->]. }
    destruct (specialist_no_handoff G (agent_of c) (context_of request c)
                (ChatRequest.message request) Hname) as [_ Hnone].
    by rewrite (handle_handoff_None _ _ _ _ Hnone).
  - rewrite lookup_insert_ne by done. by exists c.
Qed.

End ChatAgents.


(** X15: a conversation whose active agent is the Schedule Agent or the
    Networking Agent keeps that agent through any sequence of requests:
    the specialists never hand off, so no conversation returns to the
    Triage Agent. *)
Theorem X15_specialist_keeps_conversation `{Runtime} (G : gmap string Guardrail)
    (requests : list ChatRequest.t) (w : World) (cid : string) (c : Conversation.t) :
  (forall i j, uuid4 i = uuid4 j -> i = j) ->
  keys_drawn w ->
  conversations w !! cid = Some c ->
  Conversation.current_agent c = "Schedule Agent" \/
  Conversation.current_agent c = "Networking Agent" ->
  exists c',
    conversations (Api.serve G requests w) !! cid = Some c' /\
    Conversation.current_agent c' = Conversation.current_agent c.
Proof.
  intros Hunique. revert w c.
  induction requests as [|request requests IH]; intros w c Hkeys Hc Hcur.
  - by exists c.
  - cbn [Api.serve].
    destruct (chat_specialist_stays G request w cid c Hunique Hkeys Hc Hcur)
      as (c1 & Hc1 & Hcur1).
    destruct (IH _ c1 (chat_keys_drawn G request w Hkeys) Hc1) as (c' & Hc' & Hcur').
    { by rewrite Hcur1. }
    exists c'. split; [done | congruence].
Qed.


(** ** Loading the user *)

(** X17: loading the user for a request.  Without an account number, or
    with an empty one, nothing is looked up: the context is the stored one
    and the customer information is the stored one.  With an account
    number, a row reported as customer information is a non-empty row
    returned by one of the two lookups, the context is built from it, and
    its attendee flag is the row's or true; when no row is reported the
    context is the stored one; the lookup by QR code is made only after
    the lookup by registration identifier returned nothing; and a
    non-empty row found by registration identifier is the one reported,
    after that single lookup. *)
Theorem X17_load_user_context `{Runtime} (account : option string)
    (c : Conversation.t) :
  let loaded := Api.load_user_context account c in
  (account = None \/ account = Some "" ->
   loaded = (Conversation.context c, Conversation.customer_info c, [])) /\
  (forall acc,
     account = Some acc -> acc <> "" ->
     (forall row,
        loaded.1.2 = Some row ->
        loaded.1.1 = Api.context_of_user row /\
        size row <> 0 /\
        is_conference_attendee loaded.1.1
        = Some (default (PBool true) (row !! "is_conference_attendee")) /\
        (get_user_by_registration_id acc = Returned (Some row) \/
         get_user_by_qr_code acc = Returned (Some row))) /\
     (loaded.1.2 = None -> loaded.1.1 = Conversation.context c) /\
     (CallDirectory "get_user_by_qr_code" acc ∈ loaded.2 ->
      exists user,
        get_user_by_registration_id acc = Returned user /\
        Api.truthy_user user = None) /\
     (forall row,
        get_user_by_registration_id acc = Returned (Some row) ->
        size row <> 0 ->
        loaded.1.2 = Some row /\
        loaded.2 = [CallDirectory "get_user_by_registration_id" acc])).
Proof.
  intros loaded. subst loaded.
  assert (forall user row,
            Api.truthy_user user = Some row -> user = Some row /\ size row <> 0)
    as Htruthy.
  { intros [r|] row; cbn [Api.truthy_user]; [|done].
    destruct (Nat.eqb_spec (size r) 0); [done|]. by intros [= <-]. }
  split.
  - intros [-> | ->]; reflexivity.
  - intros acc -> Hacc. unfold Api.load_user_context.
    assert (Py.truthy acc = true) as -> by (by destruct acc).
    destruct (get_user_by_registration_id acc) as [user|e] eqn:Hid.
    2: { cbn. split_and!; try done.
         intros Hin. repeat (apply elem_of_cons in Hin as [Hin|Hin]; [discriminate|]).
         by apply elem_of_nil in Hin. }
    destruct (Api.truthy_user user) as [row|] eqn:Hrow.
    + destruct (Htruthy _ _ Hrow) as [-> Hsize]. cbn. split_and!.
      * intros ? [= <-]. split_and!; try done. by left.
      * done.
      * intros Hin. repeat (apply elem_of_cons in Hin as [Hin|Hin]; [discriminate|]).
        by apply elem_of_nil in Hin.
      * by intros ? [= <-] _.
    + assert (forall row, user = Some row -> size row <> 0 -> False) as Hempty.
      { intros row -> Hsize. cbn [Api.truthy_user] in Hrow.
        by destruct (Nat.eqb_spec (size row) 0). }
      destruct (get_user_by_qr_code acc) as [user2|e] eqn:Hqr.
      2: { cbn. split_and!; try done.
           - intros _. by exists user.
           - intros row [= ->] Hsize. by destruct (Hempty row). }
      destruct (Api.truthy_user user2) as [row2|] eqn:Hrow2.
      * destruct (Htruthy _ _ Hrow2) as [-> Hsize2]. cbn. split_and!.
        -- intros ? [= <-]. split_and!; try done. by right.
        -- done.
        -- intros _. by exists user.
        -- intros row [= ->] Hsize. by destruct (Hempty row).
      * cbn. split_and!; try done.
        -- intros _. by exists user.
        -- intros row [= ->] Hsize. by destruct (Hempty row).
Qed.


(** ** The lookup endpoints *)

(** A row that counts as found is a non-empty dictionary. *)
Lemma truthy_user_Some (user : option User) (row : User) :
  Api.truthy_user user = Some row <-> user = Some row /\ size row <> 0.
Proof.
  destruct user as [r|]; cbn [Api.truthy_user]; [|by split; [|intros [? _]]].
  destruct (Nat.eqb_spec (size r) 0) as [Hzero|Hpos].
  - split; [done|]. intros [[= ->] Hsize]. done.
  - split; [by intros [= <-] | by intros [[= ->] _]].
Qed.

(** X19: the endpoint [/user/{identifier}].  A row it returns is a
    non-empty row given by the lookup by registration identifier or by the
    lookup by QR code; when it raises, the status is 404 with "User not
    found" and nothing logged, or 500 with the text of the exception a
    lookup raised, which is logged; a non-empty row found by registration
    identifier is returned after that single lookup; and for a non-empty
    identifier it returns a row exactly when the loader of [/chat] reports
    that row for the same account number. *)
Theorem X19_get_user_info_endpoint `{Runtime} (identifier : string) :
  let answer := Endpoints.get_user_info identifier in
  (forall row,
     answer.1 = Ok row ->
     size row <> 0 /\
     (get_user_by_registration_id identifier = Returned (Some row) \/
      get_user_by_qr_code identifier = Returned (Some row))) /\
  (forall status detail,
     answer.1 = HTTPException status detail ->
     (status = 404 /\ detail = "User not found" /\
      Forall (fun effect => forall text, effect <> LogError text) answer.2) \/
     (status = 500 /\
      (get_user_by_registration_id identifier = Raised detail \/
       get_user_by_qr_code identifier = Raised detail) /\
      LogError ("Error getting user info: " +:+ detail) ∈ answer.2)) /\
  (forall row,
     get_user_by_registration_id identifier = Returned (Some row) ->
     size row <> 0 ->
     answer = (Ok row, [CallDirectory "get_user_by_registration_id" identifier])) /\
  (identifier <> "" ->
   forall c row,
     answer.1 = Ok row <->
     (Api.load_user_context (Some identifier) c).1.2 = Some row).
Proof.
  intros answer. subst answer.
  unfold Endpoints.get_user_info, Api.load_user_context.
  assert (forall effect : Effect,
            (exists lookup id, effect = CallDirectory lookup id) ->
            forall text, effect <> LogError text) as Hcall.
  { intros effect (lookup & id & ->) text. discriminate. }
  assert (identifier <> "" -> Py.truthy identifier = true) as Htruthy
    by (by destruct identifier).
  destruct (get_user_by_registration_id identifier) as [user|e] eqn:Hid.
  2: { cbn. split_and!; try done.
       - intros status detail [= <- <-]. right. split_and!; [done | by left |].
         apply elem_of_cons. right. apply list_elem_of_here.
       - intros Hne c row. rewrite (Htruthy Hne). cbn. by split. }
  destruct (Api.truthy_user user) as [row|] eqn:Hrow.
  - apply truthy_user_Some in Hrow as [-> Hsize]. cbn. split_and!; try done.
    + intros ? [= <-]. split; [done | by left].
    + by intros ? [= <-] _.
    + intros Hne c row'. rewrite (Htruthy Hne).
      cbn. split; by intros [= ->].
  - assert (forall row, user = Some row -> size row <> 0 -> False) as Hempty.
    { intros row -> Hsize.
      assert (Api.truthy_user (Some row) = Some row) as Hrow'
        by (by apply truthy_user_Some).
      congruence. }
    destruct (get_user_by_qr_code identifier) as [user2|e] eqn:Hqr.
    2: { cbn. split_and!; try done.
         - intros status detail [= <- <-]. right. split_and!; [done | by right |].
           do 2 (apply elem_of_cons; right). apply list_elem_of_here.
         - intros row [= ->] Hsize. by destruct (Hempty row).
         - intros Hne c row. rewrite (Htruthy Hne). cbn. by split. }
    destruct (Api.truthy_user user2) as [row2|] eqn:Hrow2.
    + apply truthy_user_Some in Hrow2 as [-> Hsize2]. cbn. split_and!; try done.
      * intros ? [= <-]. split; [done | by right].
      * intros row [= ->] Hsize. by destruct (Hempty row).
      * intros Hne c row'. rewrite (Htruthy Hne).
        cbn. split; by intros [= ->].
    + cbn. split_and!; try done.
      * intros status detail [= <- <-]. left. split_and!; try done.
        repeat constructor; apply Hcall; by eexists _, _.
      * intros row [= ->] Hsize. by destruct (Hempty row).
      * intros Hne c row. rewrite (Htruthy Hne). cbn. by split.
Qed.

(** X20: the endpoints [/customer/{account_number}] and
    [/booking/{confirmation_number}].  The customer answer holds the
    non-empty row found for the account, the bookings found under the
    row's [id] (the empty string when the row has none) and, as current
    booking, the first of them or nothing; the bookings are looked up only
    for a customer that was found.  Either endpoint raises 404 exactly when
    its record lookup returns nothing or an empty row, and 500, with the
    text of the exception, exactly when a lookup raises. *)
Theorem X20_customer_and_booking_endpoints `{Database} (key : string) :
  let customer_answer := Endpoints.get_customer_info key in
  let booking_answer := Endpoints.get_booking_info key in
  (forall response,
     customer_answer.1 = Ok response ->
     exists row,
       CustomerInfoResponse.customer response = Some row /\
       size row <> 0 /\
       get_customer_by_account_number key = Returned (Some row) /\
       get_bookings_by_customer_id (default (PStr "") (row !! "id"))
       = Returned (CustomerInfoResponse.bookings response) /\
       CustomerInfoResponse.current_booking response
       = head (CustomerInfoResponse.bookings response)) /\
  (forall lookup id,
     CallDirectory lookup id ∈ customer_answer.2 ->
     lookup = "get_bookings_by_customer_id" ->
     exists row,
       get_customer_by_account_number key = Returned (Some row) /\ size row <> 0) /\
  (forall status detail,
     customer_answer.1 = HTTPException status detail ->
     (status = 404 /\ detail = "Customer not found" /\
      exists customer,
        get_customer_by_account_number key = Returned customer /\
        Api.truthy_user customer = None) \/
     (status = 500 /\
      (get_customer_by_account_number key = Raised detail \/
       exists customer_id, get_bookings_by_customer_id customer_id = Raised detail))) /\
  (forall row,
     booking_answer.1 = Ok row <->
     get_booking_by_confirmation key = Returned (Some row) /\ size row <> 0) /\
  (forall status detail,
     booking_answer.1 = HTTPException status detail <->
     (status = 404 /\ detail = "Booking not found" /\
      exists booking,
        get_booking_by_confirmation key = Returned booking /\
        Api.truthy_user booking = None) \/
     (status = 500 /\ get_booking_by_confirmation key = Raised detail)).
Proof.
  intros customer_answer booking_answer. subst customer_answer booking_answer.
  unfold Endpoints.get_customer_info, Endpoints.get_booking_info.
  split_and!.
  - destruct (get_customer_by_account_number key) as [customer|e]; [|done].
    destruct (Api.truthy_user customer) as [row|] eqn:Hrow; [|done].
    apply truthy_user_Some in Hrow as [-> Hsize].
    destruct (get_bookings_by_customer_id _) as [bookings|e] eqn:Hb; [|done].
    intros response [= <-]. by exists row.
  - destruct (get_customer_by_account_number key) as [customer|e].
    2: { intros lookup id Hin ->. cbn in Hin.
         repeat (apply elem_of_cons in Hin as [Hin|Hin]; [discriminate|]).
         by apply elem_of_nil in Hin. }
    destruct (Api.truthy_user customer) as [row|] eqn:Hrow.
    + apply truthy_user_Some in Hrow as [-> Hsize]. intros. by exists row.
    + intros lookup id Hin ->. cbn in Hin.
      repeat (apply elem_of_cons in Hin as [Hin|Hin]; [discriminate|]).
      by apply elem_of_nil in Hin.
  - destruct (get_customer_by_account_number key) as [customer|e] eqn:Hc.
    2: { intros status detail [= <- <-]. right. split; [done | by left]. }
    destruct (Api.truthy_user customer) as [row|] eqn:Hrow.
    + destruct (get_bookings_by_customer_id _) as [bookings|e] eqn:Hb; [done|].
      intros status detail [= <- <-]. right. split; [done|]. right. by eexists.
    + intros status detail [= <- <-]. left. split_and!; try done. by exists customer.
  - intros row. destruct (get_booking_by_confirmation key) as [booking|e].
    2: { cbn. split; [done | by intros [? _]]. }
    destruct (Api.truthy_user booking) as [found|] eqn:Hrow.
    + apply truthy_user_Some in Hrow as [-> Hsize]. cbn.
      split; [by intros [= <-] | by intros [[= ->] _]].
    + cbn. split; [done|]. intros [[= ->] Hsize].
      assert (Api.truthy_user (Some row) = Some row) as Hrow'
        by (by apply truthy_user_Some).
      congruence.
  - intros status detail.
    destruct (get_booking_by_confirmation key) as [booking|e].
    2: { cbn. split.
         - intros [= <- <-]. by right.
         - intros [(_ & _ & ? & [=] & _)|[-> [= ->]]]. done. }
    destruct (Api.truthy_user booking) as [found|] eqn:Hrow.
    + cbn. split; [done|].
      intros [(_ & _ & b & [= <-] & Hnone)|[_ [=]]]. congruence.
    + cbn. split.
      * intros [= <- <-]. left. split_and!; try done. by exists booking.
      * by intros [(-> & -> & _)|[_ [=]]].
Qed.

(** ** The tools that write *)

(** X21: [get_user_info_tool] leaves the context as it is unless it finds
    a user; when it changes the context, a non-empty row was returned by
    one of the two lookups, the context is built from that row and the
    text welcomes the row's name.  For a non-empty identifier it leaves
    the context that the loader of [/chat] computes for the same
    identifier from the same stored context, and it finds a row exactly
    when the endpoint [/user/{identifier}] returns it. *)
Theorem X21_get_user_info_tool `{Runtime} (context : AirlineAgentContext)
    (identifier : string) :
  let answer := Tools.get_user_info_tool context identifier in
  (answer.1.2 = context \/
   exists row,
     size row <> 0 /\
     (get_user_by_registration_id identifier = Returned (Some row) \/
      get_user_by_qr_code identifier = Returned (Some row)) /\
     answer.1.2 = Api.context_of_user row /\
     answer.1.1 = "Welcome " +:+ format_value (row !! "name")
                  +:+ "! I have loaded your conference information.") /\
  (forall row,
     (Endpoints.get_user_info identifier).1 = Ok row ->
     answer.1.2 = Api.context_of_user row) /\
  ((forall row, (Endpoints.get_user_info identifier).1 <> Ok row) ->
   answer.1.2 = context) /\
  (identifier <> "" ->
   forall c,
     Conversation.context c = context ->
     (Api.load_user_context (Some identifier) c).1.1 = answer.1.2).
Proof.
  intros answer. subst answer.
  unfold Tools.get_user_info_tool, Endpoints.get_user_info, Api.load_user_context.
  assert (identifier <> "" -> Py.truthy identifier = true) as Htruthy
    by (by destruct identifier).
  destruct (get_user_by_registration_id identifier) as [user|e] eqn:Hid.
  2: { cbn. split_and!; try done; [by left|].
       intros Hne c <-. by rewrite (Htruthy Hne). }
  destruct (Api.truthy_user user) as [row|] eqn:Hrow.
  - apply truthy_user_Some in Hrow as [-> Hsize]. cbn. split_and!.
    + right. exists row. split_and!; try done. by left.
    + by intros ? [= <-].
    + intros Hnone. by destruct (Hnone row).
    + intros Hne c <-. by rewrite (Htruthy Hne).
  - destruct (get_user_by_qr_code identifier) as [user2|e] eqn:Hqr.
    2: { cbn. split_and!; try done; [by left|].
         intros Hne c <-. by rewrite (Htruthy Hne). }
    destruct (Api.truthy_user user2) as [row2|] eqn:Hrow2.
    + apply truthy_user_Some in Hrow2 as [-> Hsize2]. cbn. split_and!.
      * right. exists row2. split_and!; try done. by right.
      * by intros ? [= <-].
      * intros Hnone. by destruct (Hnone row2).
      * intros Hne c <-. by rewrite (Htruthy Hne).
    + cbn. split_and!; try done; [by left|].
      intros Hne c <-. by rewrite (Htruthy Hne).
Qed.

(** X22: [add_business_tool] always returns a text.  Without a user
    identifier in the context, as in a conversation where no user was
    loaded, it refuses and does not call the database; with one it calls
    the database once, for that user and with the details of the form, and
    answers by the outcome: added, not added, or the text of the exception.
    A context loaded from a row whose [id] is a non-empty string carries
    that identifier. *)
Theorem X22_add_business_tool `{Runtime} `{Database} (context : AirlineAgentContext)
    (fields : BusinessArgs) :
  let answer := Tools.add_business_tool context fields in
  (truthy_value (customer_id context) = None ->
   answer
   = ("Unable to add business: No user context available. Please log in first.", [])) /\
  Tools.add_business_tool AirlineAgentContext_new fields
  = ("Unable to add business: No user context available. Please log in first.", []) /\
  (forall user_id,
     truthy_value (customer_id context) = Some user_id ->
     answer.2 = [CallDirectory "add_business" (py_str user_id)] /\
     answer.1
     = match add_business user_id (Tools.business_details fields) with
       | Returned true => Tools.added_text (company_name fields)
       | Returned false => Tools.not_added_text (company_name fields)
       | Raised e => "Error adding business: " +:+ e
       end) /\
  (forall (row : User) (id : string),
     row !! "id" = Some (PStr id) -> id <> "" ->
     truthy_value (customer_id (Api.context_of_user row)) = Some (PStr id)).
Proof.
  intros answer. subst answer. unfold Tools.add_business_tool. split_and!.
  - by intros ->.
  - done.
  - intros user_id ->.
    destruct (add_business user_id (Tools.business_details fields)) as [[|]|e]; done.
  - intros row id Hid Hne. cbn [Api.context_of_user customer_id]. rewrite Hid.
    cbn [truthy_value]. by destruct id.
Qed.

(** X23: the details sent to the database always hold the nine fields of
    the form under their camel-case keys, and hold the key [web] exactly
    when a non-empty website was given, bound to it; no other key is
    present.  For arguments read from the parsed form, the website is the
    text of its [website] line. *)
Theorem X23_business_details `{Runtime} (fields : BusinessArgs) :
  let details := Tools.business_details fields in
  details !! "companyName" = Some (company_name fields) /\
  details !! "industrySector" = Some (industry_sector fields) /\
  details !! "subSector" = Some (sub_sector fields) /\
  details !! "location" = Some (location fields) /\
  details !! "positionTitle" = Some (position_title fields) /\
  details !! "legalStructure" = Some (legal_structure fields) /\
  details !! "establishmentYear" = Some (establishment_year fields) /\
  details !! "productsOrServices" = Some (products_or_services fields) /\
  details !! "briefDescription" = Some (brief_description fields) /\
  (forall web, details !! "web" = Some web <-> website fields = Some web /\ web <> "") /\
  (forall key,
     is_Some (details !! key) ->
     key ∈ ["companyName"; "industrySector"; "subSector"; "location";
            "positionTitle"; "legalStructure"; "establishmentYear";
            "productsOrServices"; "briefDescription"; "web"]) /\
  (forall business_data : gmap string string,
     Tools.business_details (Api.business_args business_data) !! "web"
     = match business_data !! "website" with
       | Some web => if Py.truthy web then Some web else None
       | None => None
       end).
Proof.
  intros details. subst details.
  assert (forall key,
            is_Some (Tools.business_details fields !! key) ->
            key ∈ ["companyName"; "industrySector"; "subSector"; "location";
                   "positionTitle"; "legalStructure"; "establishmentYear";
                   "productsOrServices"; "briefDescription"; "web"]) as Hkeys.
  { intros key. unfold Tools.business_details.
    assert (forall m : gmap string string,
              (is_Some (m !! key) ->
               key ∈ ["companyName"; "industrySector"; "subSector"; "location";
                      "positionTitle"; "legalStructure"; "establishmentYear";
                      "productsOrServices"; "briefDescription"; "web"]) ->
              forall web,
                is_Some (<["web" := web]> m !! key) ->
                key ∈ ["companyName"; "industrySector"; "subSector"; "location";
                       "positionTitle"; "legalStructure"; "establishmentYear";
                       "productsOrServices"; "briefDescription"; "web"]) as Hweb.
    { intros m Hm web. rewrite lookup_insert_is_Some.
      intros [<-|[_ Hsome]]; [|by apply Hm].
      repeat first [apply list_elem_of_here | apply list_elem_of_further]. }
    assert (is_Some
              ((<["companyName" := company_name fields]>
                  (<["industrySector" := industry_sector fields]>
                     (<["subSector" := sub_sector fields]>
                        (<["location" := location fields]>
                           (<["positionTitle" := position_title fields]>
                              (<["legalStructure" := legal_structure fields]>
                                 (<["establishmentYear" := establishment_year fields]>
                                    (<["productsOrServices" := products_or_services fields]>
                                       (<["briefDescription" := brief_description fields]>
                                          (∅ : gmap string string)))))))))) !! key) ->
            key ∈ ["companyName"; "industrySector"; "subSector"; "location";
                   "positionTitle"; "legalStructure"; "establishmentYear";
                   "productsOrServices"; "briefDescription"; "web"]) as Hnine.
    { rewrite !lookup_insert_is_Some, lookup_empty.
      intros Hsome.
      repeat (destruct Hsome as [<-|[_ Hsome]];
              [repeat first [apply list_elem_of_here | apply list_elem_of_further]|]).
      by destruct Hsome. }
    destruct (website fields) as [web|]; [|exact Hnine].
    destruct (Py.truthy web); [by apply Hweb | exact Hnine]. }
  assert (forall web : string, Py.truthy web = true <-> web <> "") as Htruthy.
  { intros [|c web]; cbn; split; done. }
  split_and!; try exact Hkeys;
    try (unfold Tools.business_details;
         destruct (website fields) as [web|]; [destruct (Py.truthy web)|];
         by repeat (rewrite lookup_insert_ne by done); rewrite ?lookup_insert_eq).
  - intros web'. unfold Tools.business_details.
    destruct (website fields) as [web|].
    + destruct (Py.truthy web) eqn:Hweb.
      * rewrite lookup_insert_eq. apply Htruthy in Hweb.
        split; [by intros [= <-] | by intros [[= <-] _]].
      * repeat (rewrite lookup_insert_ne by done). rewrite lookup_empty.
        split; [done|]. intros [[= <-] Hne]. apply Htruthy in Hne. congruence.
    + repeat (rewrite lookup_insert_ne by done). rewrite lookup_empty.
      split; [done | by intros [? _]].
  - intros business_data. unfold Tools.business_details.
    cbn [Api.business_args website].
    destruct (business_data !! "website") as [web|].
    + destruct (Py.truthy web); [by rewrite lookup_insert_eq|].
      repeat (rewrite lookup_insert_ne by done). by rewrite lookup_empty.
    + repeat (rewrite lookup_insert_ne by done). by rewrite lookup_empty.
Qed.

(** ** Tool loops *)

Section ToolLoops.
Context `{Runtime}.
Variables (context : AirlineAgentContext) (message : string).

Lemma schedule_tool_loop_skip (pre rest : list Tool) :
  Forall (fun t => tool_name t <> "get_conference_schedule_tool") pre ->
  Api.schedule_tool_loop context message (pre ++ rest)
  = Api.schedule_tool_loop context message rest.
Proof.
  induction 1 as [|t ts Ht _ IH]; [done|].
  rewrite <- app_comm_cons. cbn [Api.schedule_tool_loop].
  apply String.eqb_neq in Ht. by rewrite Ht.
Qed.

(** Tools that raise or have another name add no result. *)
Lemma networking_tool_loop_raising (wanted : string) (args : ToolArgs)
    (pre rest : list Tool) :
  Forall (fun t => tool_name t = wanted ->
                   exists e, tool_call t context args = Raised e) pre ->
  (Api.networking_tool_loop context wanted args (pre ++ rest)).1
  = (Api.networking_tool_loop context wanted args rest).1.
Proof.
  induction 1 as [|t ts Ht _ IH]; [done|].
  rewrite <- app_comm_cons. cbn [Api.networking_tool_loop].
  destruct (String.eqb_spec (tool_name t) wanted) as [Hname|Hname]; [|done].
  destruct (Ht Hname) as [e ->].
  by destruct (Api.networking_tool_loop context wanted args (ts ++ rest)).
Qed.

End ToolLoops.

(** X24: which tool answers.  In the Schedule Agent branch the first tool
    named [get_conference_schedule_tool] decides the reply: its text, or
    "Error: " and the text of its exception; when it returns, no later tool
    is called.  In the Networking Agent branch the tools with the wanted
    name that raise are passed over: the result is the text of the first
    one that returns, and there is no result when they all raise. *)
Theorem X24_first_tool_outcome `{Runtime} (G : gmap string Guardrail)
    (context : AirlineAgentContext) (message : string) :
  (forall pre tool post,
     Forall (fun t => tool_name t <> "get_conference_schedule_tool") pre ->
     tool_name tool = "get_conference_schedule_tool" ->
     let outcome := tool_call tool context (QueryArgs message) in
     let agent := with_tools ConferenceAgents.schedule_agent (pre ++ tool :: post) in
     head (Api.schedule_tool_loop context message (pre ++ tool :: post)).1
     = Some {| ToolResult.tool_name := "get_conference_schedule_tool";
               ToolResult.result := outcome_text outcome |} /\
     Turn.messages (Api.run_single_agent_turn G agent context message).1
     = [AgentMessage (outcome_text outcome) "Schedule Agent"] /\
     (forall result,
        outcome = Returned result ->
        Api.schedule_tool_loop context message (pre ++ tool :: post)
        = ([{| ToolResult.tool_name := "get_conference_schedule_tool";
               ToolResult.result := result |}],
           [CallTool "get_conference_schedule_tool" (QueryArgs message)]))) /\
  (forall wanted args pre tool post result,
     Forall (fun t => tool_name t = wanted ->
                      exists e, tool_call t context args = Raised e) pre ->
     tool_name tool = wanted ->
     tool_call tool context args = Returned result ->
     (Api.networking_tool_loop context wanted args (pre ++ tool :: post)).1
     = [{| ToolResult.tool_name := wanted; ToolResult.result := result |}]) /\
  (forall wanted args agent_tools,
     Forall (fun t => tool_name t = wanted ->
                      exists e, tool_call t context args = Raised e) agent_tools ->
     (Api.networking_tool_loop context wanted args agent_tools).1 = []).
Proof.
  split_and!.
  - intros pre tool post Hpre Hname outcome agent.
    assert (head (Api.schedule_tool_loop context message (pre ++ tool :: post)).1
            = Some {| ToolResult.tool_name := "get_conference_schedule_tool";
                      ToolResult.result := outcome_text outcome |}) as Hhead.
    { rewrite schedule_tool_loop_skip by done. cbn [Api.schedule_tool_loop].
      rewrite Hname. change (String.eqb _ _) with true. cbv iota. fold outcome.
      destruct outcome as [result|e]; [done|].
      by destruct (Api.schedule_tool_loop context message post). }
    split; [exact Hhead|]. split.
    + subst agent. rewrite turn_open; [|done|by eexists].
      cbn [fst Turn.messages name with_tools ConferenceAgents.schedule_agent].
      unfold Api.execute_tools.
      cbn [name tools with_tools ConferenceAgents.schedule_agent].
      change (String.eqb "Schedule Agent" "Schedule Agent") with true.
      assert (Api.nonempty (pre ++ tool :: post) = true) as ->
        by (by destruct pre).
      cbn [andb].
      destruct (Api.schedule_tool_loop context message (pre ++ tool :: post)).1
        as [|first rest] eqn:Hresults; [done|].
      cbn [head] in Hhead. injection Hhead as ->.
      change (Api.target_agent_for "Schedule Agent" (lower message)) with (@None string).
      by cbn.
    + intros result Hresult. rewrite schedule_tool_loop_skip by done.
      cbn [Api.schedule_tool_loop]. rewrite Hname.
      change (String.eqb _ _) with true. cbv iota. fold outcome. by rewrite Hresult.
  - intros wanted args pre tool post result Hpre Hname Hcall.
    rewrite networking_tool_loop_raising by done. cbn [Api.networking_tool_loop].
    rewrite Hname, String.eqb_refl, Hcall. by rewrite <- Hname.
  - intros wanted args agent_tools Hall.
    rewrite <- (app_nil_r agent_tools). by rewrite networking_tool_loop_raising.
Qed.

(** ** The shape of the message logs *)

(** X25: whatever requests are served from the empty store, the message
    log of every conversation is a sequence of turns: a message of the
    user followed by one or two replies of agents. *)
Theorem X25_logs_are_turns `{Runtime} (G : gmap string Guardrail)
    (requests : list ChatRequest.t) :
  forall cid c,
    conversations (Api.serve G requests initial_world) !! cid = Some c ->
    turns (Conversation.messages c).
Proof.
  assert (forall w,
            (forall cid c, conversations w !! cid = Some c ->
                           turns (Conversation.messages c)) ->
            forall cid c,
              conversations (Api.serve G requests w) !! cid = Some c ->
              turns (Conversation.messages c)) as Hserve.
  { induction requests as [|request requests IH]; intros w Hw; [exact Hw|].
    cbn [Api.serve]. apply IH. clear IH.
    destruct (chat_appends_turn G request w)
      as (c & c2 & replies & Hc & Hchat & Hmessages & Hlen & Hreplies).
    rewrite Hchat. cbn [conversations].
    assert (forall cid c, conversations
              (Api.get_or_create_conversation (ChatRequest.conversation_id request) w).2
              !! cid = Some c -> turns (Conversation.messages c)) as Hw1.
    { destruct (get_or_create_cases (ChatRequest.conversation_id request) w)
        as [(cid0 & _ & _ & _ & ->)|[_ ->]]; [exact Hw|].
      intros cid c0. cbn [snd conversations].
      destruct (decide (cid = uuid4 (uuid_count w))) as [->|Hne].
      - rewrite lookup_insert_eq. intros [= <-]. constructor.
      - rewrite lookup_insert_ne by done. apply Hw. }
    intros cid c0.
    destruct (decide (cid = (Api.get_or_create_conversation
                               (ChatRequest.conversation_id request) w).1))
      as [->|Hne].
    - rewrite lookup_insert_eq. intros [= <-]. rewrite Hmessages.
      constructor; [by apply (Hw1 _ _ Hc) | done | done].
    - rewrite lookup_insert_ne by done. apply Hw1. }
  apply Hserve. intros cid c Hc. simpl in Hc. by rewrite lookup_empty in Hc.
Qed.

(** * Instances on the ASCII runtime *)

#[local] Existing Instance ascii_runtime.

Lemma one_conversation_keys_drawn : keys_drawn one_conversation.
Proof.
  apply (get_or_create_keys_drawn None initial_world), initial_world_keys_drawn.
Defined.




(** With a relevance guardrail that raises, the step of the Triage Agent
    logs the error, goes on with the jailbreak guardrail and hands off. *)
Lemma C5_fail_open_witness :
  let step :=
    Api.run_single_agent_turn raising_guardrails Main.triage_agent
      AirlineAgentContext_new "What sessions are on July 15th?" in
  step.1
  = (Api.run_single_agent_turn raising_guardrails
       (with_input_guardrails Main.triage_agent ["jailbreak_guardrail"])
       AirlineAgentContext_new "What sessions are on July 15th?").1 /\
  Turn.handoff step.1 = Some "Schedule Agent" /\
  step.2
  = [CallGuardrail "relevance_guardrail" "What sessions are on July 15th?";
     LogError "Error running guardrail relevance_guardrail: timeout";
     CallGuardrail "jailbreak_guardrail" "What sessions are on July 15th?"].
Proof.
  destruct (C5_guardrail_error_fail_open raising_guardrails Main.triage_agent
              AirlineAgentContext_new "What sessions are on July 15th?"
              [] ["jailbreak_guardrail"] "relevance_guardrail"
              (fun _ _ => Raised "timeout") "timeout")
    as (Hresult & _ & Hopen).
  - reflexivity.
  - vm_compute. reflexivity.
  - reflexivity.
  - cbv zeta. split; [exact Hresult|]. split; [vm_compute; reflexivity|].
    destruct Hopen as [_ Heffects].
    + repeat constructor.
    + rewrite Heffects. vm_compute. reflexivity.
Defined.



(** In the store with the conversation [c]: [c] is returned with the store
    unchanged, and two calls without identifier return [cc] and [ccc]. *)
Lemma C8_store_witness :
  keys_drawn one_conversation /\
  Api.get_or_create_conversation (Some "c") one_conversation = ("c", one_conversation) /\
  (Api.get_or_create_conversation None one_conversation).1
  <> (Api.get_or_create_conversation None
        (Api.get_or_create_conversation None one_conversation).2).1.
Proof.
  destruct (C8_get_or_create (H:=ascii_runtime) one_conversation
              ascii_uuid4_unique ascii_uuid4_nonempty
              one_conversation_keys_drawn) as (Hknown & _ & _ & Hdistinct).
  split; [exact one_conversation_keys_drawn|].
  split; [|exact Hdistinct].
  apply (Hknown "c" Api.new_conversation). vm_compute. reflexivity.
Defined.



(** ** Instances of the further properties *)

#[local] Existing Instance ascii_database.

Lemma X4_apology_witness :
  Api.run_single_agent_turn Main.all_guardrails broken_agent AirlineAgentContext_new
    "sessions today"
  = ({| Turn.messages := [AgentMessage Api.apology_text "Schedule Agent"];
        Turn.events := [];
        Turn.guardrails := [];
        Turn.handoff := None |},
     [LogError "Error running agent Schedule Agent: boom"]).
Proof.
  apply (X4_instructions_error_apology (H:=ascii_runtime) Main.all_guardrails
           broken_agent AirlineAgentContext_new "sessions today" "boom").
  - reflexivity.
  - constructor.
Defined.

Lemma X6_tool_call_witness :
  let step :=
    Api.run_single_agent_turn Main.all_guardrails ConferenceAgents.schedule_agent
      AirlineAgentContext_new "sessions today" in
  CallTool "get_conference_schedule_tool" (QueryArgs "sessions today") ∈ step.2 /\
  Turn.handoff step.1 = None.
Proof.
  cbv zeta.
  assert (CallTool "get_conference_schedule_tool" (QueryArgs "sessions today")
          ∈ (Api.run_single_agent_turn Main.all_guardrails
               ConferenceAgents.schedule_agent AirlineAgentContext_new
               "sessions today").2) as Hin.
  { vm_compute. apply list_elem_of_here. }
  split; [exact Hin|].
  exact (proj1 (X6_tool_call_excludes_handoff (H:=ascii_runtime) Main.all_guardrails
                  ConferenceAgents.schedule_agent AirlineAgentContext_new
                  "sessions today" _ _ Hin)).
Defined.


Lemma X10_no_tool_witness :
  Turn.messages
    (Api.run_single_agent_turn Main.all_guardrails
       (with_tools ConferenceAgents.schedule_agent []) AirlineAgentContext_new
       "sessions today").1
  = [AgentMessage Api.specialist_default_text "Schedule Agent"].
Proof.
  apply (X10_specialist_without_tool (H:=ascii_runtime) Main.all_guardrails
           (with_tools ConferenceAgents.schedule_agent []) AirlineAgentContext_new
           "sessions today").
  - discriminate.
  - constructor.
  - reflexivity.
  - by exists tt.
Defined.


Lemma after_schedule_request_keys_drawn : keys_drawn after_schedule_request.
Proof.
  apply (chat_keys_drawn Main.all_guardrails schedule_request initial_world),
    initial_world_keys_drawn.
Defined.

Lemma X15_specialist_witness :
  exists c',
    conversations
      (Api.serve Main.all_guardrails [joke_request; follow_up_request]
         after_schedule_request) !! "c" = Some c' /\
    Conversation.current_agent c' = "Schedule Agent".
Proof.
  assert (exists c, conversations after_schedule_request !! "c" = Some c /\
                    Conversation.current_agent c = "Schedule Agent")
    as (c & Hc & Hcur).
  { eexists. split; vm_compute; reflexivity. }
  destruct (X15_specialist_keeps_conversation (H:=ascii_runtime) Main.all_guardrails
              [joke_request; follow_up_request] after_schedule_request "c" c
              ascii_uuid4_unique after_schedule_request_keys_drawn Hc
              (or_introl Hcur)) as (c' & Hc' & Hcur').
  exists c'. split; [exact Hc'|]. exact (eq_trans Hcur' Hcur).
Defined.


Lemma X25_turns_witness :
  exists c,
    conversations
      (Api.serve Main.all_guardrails [schedule_request; follow_up_request]
         initial_world) !! "c" = Some c /\
    turns (Conversation.messages c).
Proof.
  assert (exists c,
            conversations
              (Api.serve Main.all_guardrails [schedule_request; follow_up_request]
                 initial_world) !! "c" = Some c) as (c & Hc).
  { eexists. vm_compute. reflexivity. }
  exists c. split; [exact Hc|].
  exact (X25_logs_are_turns (H:=ascii_runtime) Main.all_guardrails
           [schedule_request; follow_up_request] "c" c Hc).
Defined.
